(** * The real-time presence-and-room relay of [backend/app/main.py]

    A shallow embedding of the Socket.IO event handlers of the relay
    (connect, disconnect, user_online, join_conversation,
    leave_conversation, send_message, typing, message_read,
    voice_call_request) together with the one piece of state the relay
    owns, the [online_users] dictionary.

    Python values arriving in event payloads are modelled by [pyval];
    handlers are programs of a small state-and-exception monad over a
    [World]; the Socket.IO server [sio], an external collaborator, is an
    interface ([Transport]) with one reference implementation ([hub]).

    Each handler is a coroutine that is modelled as running to
    completion: no other handler is interleaved at its [await]s.
    Standard output is a strict UTF-8 stream: [print] raises when the
    text it is given cannot be encoded. *)

From Stdlib Require Import ZArith String Ascii.
From stdpp Require Import gmap strings list.

Local Open Scope string_scope.

(** ** Python values *)

(** The JSON-shaped values a Socket.IO payload can hold.  A dictionary is
    kept as an association list in insertion order with string keys;
    numbers are integers.  A text is held as its UTF-8 bytes; a lone
    surrogate (which JSON can carry as an escape and UTF-8 cannot encode)
    is held in the three-byte form [ED A0..BF xx]. *)
#[local] Unset Elimination Schemes.
Inductive pyval : Type :=
  | PNone
  | PBool (b : bool)
  | PInt (n : Z)
  | PStr (s : string)
  | PList (xs : list pyval)
  | PDict (kvs : list (string * pyval)).
#[local] Set Elimination Schemes.

(** Python truth value testing, as used by [if not x] and [all([...])]. *)
Definition truthy (v : pyval) : bool :=
  match v with
  | PNone => false
  | PBool b => b
  | PInt n => negb (n =? 0)%Z
  | PStr s => negb (String.eqb s "")
  | PList xs => match xs with [] => false | _ :: _ => true end
  | PDict kvs => match kvs with [] => false | _ :: _ => true end
  end.

(** The text holds a lone surrogate: the byte [ED] followed by a byte in
    [A0..BF]. *)
Fixpoint has_surrogate (s : string) : bool :=
  match s with
  | EmptyString => false
  | String c rest =>
      match rest with
      | EmptyString => false
      | String d _ =>
          (Ascii.eqb c "237"%char
           && (160 <=? nat_of_ascii d)%nat && (nat_of_ascii d <=? 191)%nat)
          || has_surrogate rest
      end
  end.

(** Whether the text an f-string makes of the value can be written to
    standard output: [str] of a text is the text itself, so it must hold
    no lone surrogate; every other value is formatted in ASCII ([repr]
    escapes the texts inside lists and dictionaries). *)
Definition encodable (v : pyval) : bool :=
  match v with
  | PStr s => negb (has_surrogate s)
  | _ => true
  end.

(** The one-character text U+D800, a lone surrogate. *)
Definition lone_surrogate : string :=
  String "237"%char (String "160"%char (String "128"%char EmptyString)).

(** [all(xs)] *)
Definition py_all (xs : list pyval) : bool := forallb truthy xs.

(** Key lookup in a dictionary. *)
Fixpoint dict_lookup (k : string) (kvs : list (string * pyval)) : option pyval :=
  match kvs with
  | [] => None
  | (k', v) :: rest => if String.eqb k k' then Some v else dict_lookup k rest
  end.

(** Structural equality on values, used to compare room names. *)
Fixpoint pyval_eqb (x y : pyval) {struct x} : bool :=
  match x, y with
  | PNone, PNone => true
  | PBool a, PBool b => Bool.eqb a b
  | PInt a, PInt b => (a =? b)%Z
  | PStr a, PStr b => String.eqb a b
  | PList xs, PList ys =>
      (fix go (xs ys : list pyval) {struct xs} : bool :=
         match xs, ys with
         | [], [] => true
         | x :: xs', y :: ys' => pyval_eqb x y && go xs' ys'
         | _, _ => false
         end) xs ys
  | PDict xs, PDict ys =>
      (fix go (xs ys : list (string * pyval)) {struct xs} : bool :=
         match xs, ys with
         | [], [] => true
         | (k, x) :: xs', (k', y) :: ys' =>
             String.eqb k k' && pyval_eqb x y && go xs' ys'
         | _, _ => false
         end) xs ys
  | _, _ => false
  end.

(** ** Exceptions, outcomes and the world *)

(** The exceptions a handler can meet.  All are subclasses of Python's
    [Exception], the class the handlers' [except] clauses name. *)
Inductive exc : Type :=
  | AttributeError (attr : string)
  | TransportError (reason : string)
  | UnicodeEncodeError.

Inductive outcome (A : Type) : Type :=
  | Returned (a : A)
  | Raised (e : exc).
Arguments Returned {A} a.
Arguments Raised {A} e.

(** One line written by [print], kept structured instead of formatted. *)
Inductive log_line : Type :=
  | LogConnected (sid : string)
  | LogDisconnected (sid : string)
  | LogOnline (user_id : pyval) (sid : string)
  | LogJoined (user_id conversation_id : pyval)
  | LogLeft (user_id conversation_id : pyval)
  | LogMessageSent (conversation_id : pyval)
  | LogTyping (user_id is_typing : pyval)
  | LogRead (message_id user_id : pyval)
  | LogCall (caller_id : pyval)
  | LogError (handler : string) (e : exc).

(** Whether [print] can write the line.  Session ids are made by the
    server and the text of an exception is ASCII, so only the payload
    values a line shows can make it fail. *)
Definition printable (l : log_line) : bool :=
  match l with
  | LogConnected _ => true
  | LogDisconnected _ => true
  | LogOnline user_id _ => encodable user_id
  | LogJoined user_id conversation_id => encodable user_id && encodable conversation_id
  | LogLeft user_id conversation_id => encodable user_id && encodable conversation_id
  | LogMessageSent conversation_id => encodable conversation_id
  | LogTyping user_id is_typing => encodable user_id && encodable is_typing
  | LogRead message_id user_id => encodable message_id && encodable user_id
  | LogCall caller_id => encodable caller_id
  | LogError _ _ => true
  end.

(** The module-level state: the [online_users] dictionary (session id to
    user id), the Socket.IO server object [sio], and standard output. *)
Record World (T : Type) : Type := mkWorld {
  online_users : gmap string pyval;
  sio : T;
  stdout : list log_line
}.
Arguments mkWorld {T} _ _ _.
Arguments online_users {T} _.
Arguments sio {T} _.
Arguments stdout {T} _.

(** A handler body: it may change the world and then either returns or
    raises; changes made before a raise persist. *)
Definition M (T A : Type) : Type := World T → World T * outcome A.

Definition ret {T A} (a : A) : M T A := λ w, (w, Returned a).

Definition raise {T A} (e : exc) : M T A := λ w, (w, Raised e).

Definition bind {T A B} (m : M T A) (k : A → M T B) : M T B :=
  λ w, match m w with
       | (w', Returned a) => k a w'
       | (w', Raised e) => (w', Raised e)
       end.

(** [try: body except Exception as e: handler] *)
Definition try_except {T A} (body : M T A) (handler : exc → M T A) : M T A :=
  λ w, match body w with
       | (w', Returned a) => (w', Returned a)
       | (w', Raised e) => handler e w'
       end.

Declare Scope relay_scope.
Delimit Scope relay_scope with relay.
Notation "x <~ m ;; k" := (bind m (λ x, k))
  (at level 100, m at next level, k at level 200, right associativity) : relay_scope.
Notation "m ;;; k" := (bind m (λ _, k))
  (at level 100, k at level 200, right associativity) : relay_scope.

Definition world_after {T A} (m : M T A) (w : World T) : World T := (m w).1.
Definition outcome_of {T A} (m : M T A) (w : World T) : outcome A := (m w).2.

(** ** The Socket.IO server as an interface *)

(** The three calls the relay makes on [sio].  Each may change the
    server's state and may raise.  [sio_emit event data room skip_sid]
    has [room = None] when the call passes no [room] argument. *)
Class Transport (T : Type) : Type := {
  sio_emit : string → pyval → option pyval → option string → T → T * outcome unit;
  sio_enter_room : string → pyval → T → T * outcome unit;
  sio_leave_room : string → pyval → T → T * outcome unit
}.

Section Relay.
Context {T : Type} `{!Transport T}.
Local Open Scope relay_scope.

Definition on_sio (f : T → T * outcome unit) : M T unit :=
  λ w, let '(t, r) := f (sio w) in (mkWorld (online_users w) t (stdout w), r).

Definition emit (event : string) (data : pyval)
    (room : option pyval) (skip_sid : option string) : M T unit :=
  on_sio (sio_emit event data room skip_sid).

Definition enter_room (sid : string) (room : pyval) : M T unit :=
  on_sio (sio_enter_room sid room).

Definition leave_room (sid : string) (room : pyval) : M T unit :=
  on_sio (sio_leave_room sid room).

(** [print(line)]: the line is encoded as a whole before anything is
    written, so a line that cannot be encoded leaves no trace. *)
Definition print (l : log_line) : M T unit :=
  λ w, if printable l
       then (mkWorld (online_users w) (sio w) (stdout w ++ [l]), Returned tt)
       else (w, Raised UnicodeEncodeError).

(** [online_users[sid]] after [sid in online_users] *)
Definition users_lookup (sid : string) : M T (option pyval) :=
  λ w, (w, Returned (online_users w !! sid)).

(** [del online_users[sid]] *)
Definition users_del (sid : string) : M T unit :=
  λ w, (mkWorld (delete sid (online_users w)) (sio w) (stdout w), Returned tt).

(** [online_users[sid] = user_id] *)
Definition users_set (sid : string) (user_id : pyval) : M T unit :=
  λ w, (mkWorld (<[sid := user_id]> (online_users w)) (sio w) (stdout w), Returned tt).

(** [data.get(key, default)]; only a dictionary has a [get] attribute. *)
Definition py_get (data : pyval) (key : string) (default : pyval) : M T pyval :=
  match data with
  | PDict kvs =>
      ret (match dict_lookup key kvs with Some v => v | None => default end)
  | _ => raise (AttributeError "get")
  end.

(** *** The handlers, in the order of the source *)

Definition connect (sid : string) (environ : pyval) : M T unit :=
  print (LogConnected sid) ;;;
  emit "connection_response"
    (PDict [("status", PStr "connected"); ("sid", PStr sid)])
    (Some (PStr sid)) None.

Definition disconnect (sid : string) : M T unit :=
  print (LogDisconnected sid) ;;;
  entry <~ users_lookup sid ;;
  match entry with
  | Some user_id =>
      users_del sid ;;;
      emit "user_offline" (PDict [("user_id", user_id)]) None None
  | None => ret tt
  end.

Definition user_online (sid : string) (data : pyval) : M T unit :=
  try_except
    (user_id <~ py_get data "user_id" PNone ;;
     if negb (truthy user_id) then ret tt
     else
       users_set sid user_id ;;;
       print (LogOnline user_id sid) ;;;
       emit "user_online" (PDict [("user_id", user_id)]) None None)
    (λ e, print (LogError "user_online" e)).

Definition join_conversation (sid : string) (data : pyval) : M T unit :=
  try_except
    (conversation_id <~ py_get data "conversation_id" PNone ;;
     user_id <~ py_get data "user_id" PNone ;;
     if negb (truthy conversation_id) || negb (truthy user_id) then ret tt
     else
       enter_room sid conversation_id ;;;
       print (LogJoined user_id conversation_id) ;;;
       emit "joined_conversation"
         (PDict [("conversation_id", conversation_id); ("user_id", user_id)])
         (Some conversation_id) None)
    (λ e, print (LogError "join_conversation" e)).

Definition leave_conversation (sid : string) (data : pyval) : M T unit :=
  try_except
    (conversation_id <~ py_get data "conversation_id" PNone ;;
     user_id <~ py_get data "user_id" PNone ;;
     if negb (truthy conversation_id) then ret tt
     else
       leave_room sid conversation_id ;;;
       print (LogLeft user_id conversation_id))
    (λ e, print (LogError "leave_conversation" e)).

Definition send_message (sid : string) (data : pyval) : M T unit :=
  try_except
    (conversation_id <~ py_get data "conversation_id" PNone ;;
     if negb (truthy conversation_id) then ret tt
     else
       print (LogMessageSent conversation_id) ;;;
       emit "new_message" data (Some conversation_id) None)
    (λ e, print (LogError "send_message" e)).

Definition typing (sid : string) (data : pyval) : M T unit :=
  try_except
    (conversation_id <~ py_get data "conversation_id" PNone ;;
     user_id <~ py_get data "user_id" PNone ;;
     is_typing <~ py_get data "is_typing" (PBool true) ;;
     if negb (truthy conversation_id) || negb (truthy user_id) then ret tt
     else
       emit "user_typing"
         (PDict [("conversation_id", conversation_id);
                 ("user_id", user_id);
                 ("is_typing", is_typing)])
         (Some conversation_id) (Some sid) ;;;
       print (LogTyping user_id is_typing))
    (λ e, print (LogError "typing" e)).

Definition message_read (sid : string) (data : pyval) : M T unit :=
  try_except
    (conversation_id <~ py_get data "conversation_id" PNone ;;
     message_id <~ py_get data "message_id" PNone ;;
     user_id <~ py_get data "user_id" PNone ;;
     if negb (py_all [conversation_id; message_id; user_id]) then ret tt
     else
       emit "message_read"
         (PDict [("message_id", message_id); ("user_id", user_id)])
         (Some conversation_id) None ;;;
       print (LogRead message_id user_id))
    (λ e, print (LogError "message_read" e)).

Definition voice_call_request (sid : string) (data : pyval) : M T unit :=
  try_except
    (conversation_id <~ py_get data "conversation_id" PNone ;;
     caller_id <~ py_get data "caller_id" PNone ;;
     if negb (truthy conversation_id) || negb (truthy caller_id) then ret tt
     else
       emit "incoming_call"
         (PDict [("conversation_id", conversation_id); ("caller_id", caller_id)])
         (Some conversation_id) (Some sid) ;;;
       print (LogCall caller_id))
    (λ e, print (LogError "voice_call_request" e)).

End Relay.

(** ** The events the relay handles *)

(** The seven payload-carrying events; [@sio.event] registers each
    handler under the name of its function. *)
Inductive event : Type :=
  | EvUserOnline
  | EvJoinConversation
  | EvLeaveConversation
  | EvSendMessage
  | EvTyping
  | EvMessageRead
  | EvVoiceCallRequest.

Definition inbound_name (ev : event) : string :=
  match ev with
  | EvUserOnline => "user_online"
  | EvJoinConversation => "join_conversation"
  | EvLeaveConversation => "leave_conversation"
  | EvSendMessage => "send_message"
  | EvTyping => "typing"
  | EvMessageRead => "message_read"
  | EvVoiceCallRequest => "voice_call_request"
  end.

(** Dispatch of an inbound event to its handler. *)
Definition handle {T} `{!Transport T} (ev : event) (sid : string) (data : pyval) : M T unit :=
  match ev with
  | EvUserOnline => user_online sid data
  | EvJoinConversation => join_conversation sid data
  | EvLeaveConversation => leave_conversation sid data
  | EvSendMessage => send_message sid data
  | EvTyping => typing sid data
  | EvMessageRead => message_read sid data
  | EvVoiceCallRequest => voice_call_request sid data
  end.

(** The fields each handler tests before it acts. *)
Definition required_fields (ev : event) : list string :=
  match ev with
  | EvUserOnline => ["user_id"]
  | EvJoinConversation => ["conversation_id"; "user_id"]
  | EvLeaveConversation => ["conversation_id"]
  | EvSendMessage => ["conversation_id"]
  | EvTyping => ["conversation_id"; "user_id"]
  | EvMessageRead => ["conversation_id"; "message_id"; "user_id"]
  | EvVoiceCallRequest => ["conversation_id"; "caller_id"]
  end.

(** The event name each handler passes to [sio.emit]
    ([leave_conversation] has no such call). *)
Definition broadcast_name (ev : event) : option string :=
  match ev with
  | EvUserOnline => Some "user_online"
  | EvJoinConversation => Some "joined_conversation"
  | EvLeaveConversation => None
  | EvSendMessage => Some "new_message"
  | EvTyping => Some "user_typing"
  | EvMessageRead => Some "message_read"
  | EvVoiceCallRequest => Some "incoming_call"
  end.

(** What [data.get(key)] yields on a dictionary ([None] for a missing
    key); on any other value there is nothing to read. *)
Definition data_get (data : pyval) (key : string) : pyval :=
  match data with
  | PDict kvs => match dict_lookup key kvs with Some v => v | None => PNone end
  | _ => PNone
  end.

(** What [data.get(key, default)] yields on a dictionary. *)
Definition data_get_or (data : pyval) (key : string) (default : pyval) : pyval :=
  match data with
  | PDict kvs => match dict_lookup key kvs with Some v => v | None => default end
  | _ => default
  end.

(** A field is supplied when the payload is a dictionary holding a truthy
    value under the key; it is missing or empty otherwise. *)
Definition supplied (data : pyval) (key : string) : bool := truthy (data_get data key).

Definition is_dict (data : pyval) : bool :=
  match data with PDict _ => true | _ => false end.

(** ** A reference Socket.IO server *)

(** Modelled from the spec: the Transport Layer (the Socket.IO server
    object [sio]) is an external collaborator whose code is not part of
    the relay.  Per sections 2 and 6 it groups sessions into named rooms
    and broadcasts a payload to all members of a room, optionally
    excluding one session; a broadcast without a room reaches every
    connected session.  A [hub] keeps the membership pairs and the list of
    broadcasts made so far, each with the sessions it was delivered to. *)
Record emission : Type := mkEmission {
  em_event : string;
  em_data : pyval;
  em_room : option pyval;
  em_skip : option string;
  em_to : list string
}.

(** Modelled from the spec: the state of the Transport Layer, i.e. the room
    memberships (room [None] is the room of all connected sessions) and
    the broadcasts made so far. *)
Record hub : Type := mkHub {
  rooms : list (option pyval * string);
  outbox : list emission
}.

Definition room_eqb (a b : option pyval) : bool :=
  match a, b with
  | None, None => true
  | Some x, Some y => pyval_eqb x y
  | _, _ => false
  end.

Definition member_eqb (p q : option pyval * string) : bool :=
  room_eqb p.1 q.1 && String.eqb p.2 q.2.

(** Modelled from the spec: the Transport Layer's room primitive, the
    sessions currently listed in [room]; room [None] holds every
    connected session. *)
Definition hub_members (room : option pyval) (h : hub) : list string :=
  List.map snd (List.filter (λ p, room_eqb p.1 room) (rooms h)).

(** Modelled from the spec: the Transport Layer's [joinRoom]. *)
Definition hub_enter (sid : string) (room : option pyval) (h : hub) : hub :=
  if existsb (member_eqb (room, sid)) (rooms h) then h
  else mkHub (rooms h ++ [(room, sid)]) (outbox h).

(** Modelled from the spec: the Transport Layer's [leaveRoom]; leaving a
    room one is not in changes nothing. *)
Definition hub_leave (sid : string) (room : option pyval) (h : hub) : hub :=
  mkHub (List.filter (λ p, negb (member_eqb (room, sid) p)) (rooms h)) (outbox h).

(** Modelled from the spec: the Transport Layer's choice of receivers,
    all members of the target room except the excluded session. *)
Definition recipients (room : option pyval) (skip_sid : option string) (h : hub) : list string :=
  match skip_sid with
  | None => hub_members room h
  | Some s => List.filter (λ r, negb (String.eqb r s)) (hub_members room h)
  end.

(** Modelled from the spec: the Transport Layer's [emit]. *)
Definition hub_emit (event : string) (data : pyval) (room : option pyval)
    (skip_sid : option string) (h : hub) : hub :=
  mkHub (rooms h)
        (outbox h ++ [mkEmission event data room skip_sid (recipients room skip_sid h)]).

(** Modelled from the spec: the Transport Layer's [newConnection]; the
    session enters the room of all sessions and a room of its own, named
    by the session id. *)
Definition hub_connect (sid : string) (h : hub) : hub :=
  hub_enter sid (Some (PStr sid)) (hub_enter sid None h).

(** Modelled from the spec: when a session ends the Transport Layer
    reclaims all its room memberships. *)
Definition hub_disconnect (sid : string) (h : hub) : hub :=
  mkHub (List.filter (λ p, negb (String.eqb p.2 sid)) (rooms h)) (outbox h).

(** Modelled from the spec: the Transport Layer as an instance of the
    interface the handlers call; none of its calls raises. *)
#[global] Instance hub_transport : Transport hub := {|
  sio_emit event data room skip_sid h := (hub_emit event data room skip_sid h, Returned tt);
  sio_enter_room sid room h := (hub_enter sid (Some room) h, Returned tt);
  sio_leave_room sid room h := (hub_leave sid (Some room) h, Returned tt)
|}.

(** Modelled from the spec: a Transport Layer that can be out of service
    (the transport-level failures of section 7); while [fl_down] is set
    every call on it raises. *)
Record flaky : Type := mkFlaky {
  fl_hub : hub;
  fl_down : bool
}.

Definition flaky_call (f : hub → hub) (t : flaky) : flaky * outcome unit :=
  if fl_down t then (t, Raised (TransportError "server out of service"))
  else (mkFlaky (f (fl_hub t)) false, Returned tt).

#[global] Instance flaky_transport : Transport flaky := {|
  sio_emit event data room skip_sid := flaky_call (hub_emit event data room skip_sid);
  sio_enter_room sid room := flaky_call (hub_enter sid (Some room));
  sio_leave_room sid room := flaky_call (hub_leave sid (Some room))
|}.

(** The life of a session as the server drives it: it registers the
    session and calls [connect]; at the end it calls [disconnect] and
    reclaims the session's rooms. *)
Definition session_open (sid : string) (environ : pyval) : M hub unit :=
  bind (on_sio (λ h, (hub_connect sid h, Returned tt))) (λ _, connect sid environ).

Definition session_close (sid : string) : M hub unit :=
  bind (disconnect sid) (λ _, on_sio (λ h, (hub_disconnect sid h, Returned tt))).

(** Running a list of steps from a world, ignoring outcomes. *)
Definition run_all {T} (steps : list (M T unit)) (w : World T) : World T :=
  fold_left (λ w m, world_after m w) steps w.

Definition empty_world : World hub := mkWorld ∅ (mkHub [] []) [].

(** Two sessions, A and B, both joined to the conversation conv1 as
    users u1 and u2. *)
Definition two_in_conv1 : World hub :=
  run_all
    [session_open "A" PNone;
     session_open "B" PNone;
     join_conversation "A" (PDict [("conversation_id", PStr "conv1"); ("user_id", PStr "u1")]);
     join_conversation "B" (PDict [("conversation_id", PStr "conv1"); ("user_id", PStr "u2")])]
    empty_world.

(** Session A marked online as user u1, on a server that is out of
    service. *)
Definition out_of_service : World flaky :=
  mkWorld {["A" := PStr "u1"]} (mkFlaky (mkHub [(None, "A"); (Some (PStr "A"), "A")] []) true) [].

(** The world a rejected payload leaves behind: untouched for a
    dictionary; for any other value the failed [data.get] is logged. *)
Definition dropped_world {T} (ev : event) (data : pyval) (w : World T) : World T :=
  if is_dict data then w
  else mkWorld (online_users w) (sio w)
         (stdout w ++ [LogError (inbound_name ev) (AttributeError "get")]).

(** The names of the broadcasts a handler adds to the hub's outbox. *)
Definition emitted_names (ev : event) (sid : string) (data : pyval) (w : World hub) : list string :=
  List.map em_event
    (skipn (length (outbox (sio w))) (outbox (sio (world_after (handle ev sid data) w)))).

(** All the fields a handler requires are supplied. *)
Definition well_formed (ev : event) (data : pyval) : bool :=
  forallb (supplied data) (required_fields ev).

(** Whether the line a handler prints before it calls [sio.emit] can be
    written.  [user_online], [join_conversation] and [send_message] print
    first; the other handlers print after the call or make no call. *)
Definition prints_before_emit (ev : event) (data : pyval) : bool :=
  match ev with
  | EvUserOnline => encodable (data_get data "user_id")
  | EvJoinConversation =>
      encodable (data_get data "user_id") && encodable (data_get data "conversation_id")
  | EvSendMessage => encodable (data_get data "conversation_id")
  | _ => true
  end.

(** Payloads whose identifier is the lone surrogate U+D800. *)
Definition unprintable_message : pyval :=
  PDict [("conversation_id", PStr lone_surrogate); ("text", PStr "hi")].

Definition unprintable_user : pyval :=
  PDict [("user_id", PStr lone_surrogate)].

Definition unprintable_join : pyval :=
  PDict [("conversation_id", PStr "conv1"); ("user_id", PStr lone_surrogate)].

(** A typing event in the room named by the lone surrogate, by a user
    whose id is the lone surrogate. *)
Definition unprintable_typing : pyval :=
  PDict [("conversation_id", PStr lone_surrogate); ("user_id", PStr lone_surrogate)].

(** A and B in conv1, and a third session C connected. *)
Definition three_sessions : World hub :=
  world_after (session_open "C" PNone) two_in_conv1.

(** Sessions A and B in the room named by the lone surrogate. *)
Definition two_in_unprintable_room : World hub :=
  mkWorld ∅
    (mkHub [(None, "A"); (Some (PStr "A"), "A"); (None, "B"); (Some (PStr "B"), "B");
            (Some (PStr lone_surrogate), "A"); (Some (PStr lone_surrogate), "B")] [])
    [].

(** ** The HTTP endpoints of [main.py] *)

(** [root()]: a constant description of the service. *)
Definition root {T} : M T pyval :=
  ret (PDict [("message", PStr "Local Language Integrator API");
              ("version", PStr "2.0.0");
              ("status", PStr "running");
              ("features",
               PList [PStr "Real-time translation";
                      PStr "Sentiment analysis";
                      PStr "Voice input/output";
                      PStr "Read receipts";
                      PStr "Typing indicators";
                      PStr "Online status"])]).

(** [health()]: reports [len(online_users)]. *)
Definition health {T} : M T pyval :=
  λ w, (w, Returned (PDict [("status", PStr "healthy");
                            ("online_users", PInt (Z.of_nat (size (online_users w))))])).

(** The body [health()] returns when [n] sessions are marked online. *)
Definition health_report (n : Z) : pyval :=
  PDict [("status", PStr "healthy"); ("online_users", PInt n)].

(** ** Settings ([core/config.py]) *)

Module Config.

(** [s.split(sep)] for a one-character separator: the text is cut at every
    occurrence of [sep]; empty pieces are kept. *)
Fixpoint py_split (sep : ascii) (s : string) : list string :=
  match s with
  | EmptyString => [EmptyString]
  | String c rest =>
      if Ascii.eqb c sep then EmptyString :: py_split sep rest
      else match py_split sep rest with
           | [] => [String c EmptyString]
           | piece :: pieces => String c piece :: pieces
           end
  end.

(** The number of occurrences of a character in a text. *)
Fixpoint count_char (c : ascii) (s : string) : nat :=
  match s with
  | EmptyString => 0
  | String c' rest => (if Ascii.eqb c' c then 1 else 0) + count_char c rest
  end.

(** The fields of [Settings]; a field of type [str | None] is an option. *)
Record Settings : Type := mkSettings {
  APP_NAME : string;
  VERSION : string;
  ENVIRONMENT : string;
  HOST : string;
  PORT : Z;
  FIREBASE_CREDENTIALS_PATH : string;
  FIREBASE_CREDENTIALS_BASE64 : option string;
  FIREBASE_CREDENTIALS_JSON : option string;
  JWT_SECRET : string;
  JWT_ALGORITHM : string;
  ACCESS_TOKEN_EXPIRE_MINUTES : Z;
  ALLOWED_ORIGINS : string
}.


(** [allowed_origins = settings.ALLOWED_ORIGINS.split(',')] in [main.py]. *)
Definition allowed_origins (settings : Settings) : list string :=
  py_split ","%char (ALLOWED_ORIGINS settings).

(** Truth value of a [str | None] field: set and not empty. *)
Definition is_set (field : option string) : bool :=
  match field with
  | Some s => negb (String.eqb s "")
  | None => false
  end.

(** A library call that returns a value or raises an [Exception] whose
    text is [msg]. *)
Inductive attempt (A : Type) : Type :=
  | Ok (a : A)
  | Fails (msg : string).
Arguments Ok {A} a.
Arguments Fails {A} msg.

(** What [get_firebase_credentials] uses from the standard library and
    the file system, taken as given: [base64.b64decode], [json.loads] on
    bytes and on text, [os.path.dirname(__file__)], [os.path.join],
    [os.path.exists], and opening and reading a text file. *)
Record Runtime : Type := mkRuntime {
  b64decode : string → attempt string;
  json_loads_bytes : string → attempt pyval;
  json_loads : string → attempt pyval;
  module_dir : string;
  os_path_join : list string → string;
  os_path_exists : string → bool;
  read_text : string → attempt string
}.

(** The lines [get_firebase_credentials] prints. *)
Inductive cred_log : Type :=
  | UsingBase64
  | ErrorBase64 (msg : string)
  | UsingJson
  | ErrorJson (msg : string)
  | UsingFile (path : string)
  | ErrorFile (msg : string).

Inductive cred_outcome : Type :=
  | CredReturned (cred_dict : pyval)
  | CredValueError.

(** [cred_path] of the third source. *)
Definition cred_path (rt : Runtime) (self : Settings) : string :=
  os_path_join rt [module_dir rt; ".."; ".."; FIREBASE_CREDENTIALS_PATH self].

(** [Settings.get_firebase_credentials]: the printed lines and the
    result.  Each [inr] carries what a source printed when it did not
    return. *)
Definition get_firebase_credentials (rt : Runtime) (self : Settings)
    : list cred_log * cred_outcome :=
  match
    (if is_set (FIREBASE_CREDENTIALS_BASE64 self) then
       match b64decode rt (default "" (FIREBASE_CREDENTIALS_BASE64 self)) with
       | Ok decoded =>
           match json_loads_bytes rt decoded with
           | Ok cred_dict => inl cred_dict
           | Fails e => inr [ErrorBase64 e]
           end
       | Fails e => inr [ErrorBase64 e]
       end
     else inr [])
  with
  | inl cred_dict => ([UsingBase64], CredReturned cred_dict)
  | inr log1 =>
      match
        (if is_set (FIREBASE_CREDENTIALS_JSON self) then
           match json_loads rt (default "" (FIREBASE_CREDENTIALS_JSON self)) with
           | Ok cred_dict => inl cred_dict
           | Fails e => inr [ErrorJson e]
           end
         else inr [])
      with
      | inl cred_dict => ((log1 ++ [UsingJson])%list, CredReturned cred_dict)
      | inr log2 =>
          match
            (if os_path_exists rt (cred_path rt self) then
               match read_text rt (cred_path rt self) with
               | Ok text =>
                   match json_loads rt text with
                   | Ok cred_dict => inl cred_dict
                   | Fails e => inr [ErrorFile e]
                   end
               | Fails e => inr [ErrorFile e]
               end
             else inr [])
          with
          | inl cred_dict =>
              ((log1 ++ log2 ++ [UsingFile (cred_path rt self)])%list, CredReturned cred_dict)
          | inr log3 => ((log1 ++ log2 ++ log3)%list, CredValueError)
          end
      end
  end.


Definition json_source (rt : Runtime) (self : Settings) : option pyval :=
  match FIREBASE_CREDENTIALS_JSON self with
  | Some s =>
      if String.eqb s "" then None
      else match json_loads rt s with Ok v => Some v | Fails _ => None end
  | None => None
  end.

Definition file_source (rt : Runtime) (self : Settings) : option pyval :=
  if os_path_exists rt (cred_path rt self) then
    match read_text rt (cred_path rt self) with
    | Ok text => match json_loads rt text with Ok v => Some v | Fails _ => None end
    | Fails _ => None
    end
  else None.

(** A runtime known on a few inputs: the base64 text [e30=] decodes to
    [{}] and its truncation [e30] is rejected for its padding, the JSON
    texts [{}] and [[]] parse, and one file holding [{}] exists. *)
Definition sample_runtime : Runtime := {|
  b64decode s := if String.eqb s "e30=" then Ok "{}" else Fails "Incorrect padding";
  json_loads_bytes s :=
    if String.eqb s "{}" then Ok (PDict []) else Fails "Expecting value";
  json_loads s :=
    if String.eqb s "{}" then Ok (PDict [])
    else if String.eqb s "[]" then Ok (PList [])
    else Fails "Expecting value";
  module_dir := "/srv/app/core";
  os_path_join parts := String.concat "/" parts;
  os_path_exists p := String.eqb p "/srv/app/core/../../cred.json";
  read_text p :=
    if String.eqb p "/srv/app/core/../../cred.json" then Ok "{}"
    else Fails "No such file or directory"
|}.

Definition with_credentials (path : string) (b64 json : option string) : Settings := {|
  APP_NAME := "Local Language Integrator";
  VERSION := "1.0.0";
  ENVIRONMENT := "development";
  HOST := "0.0.0.0";
  PORT := 8000;
  FIREBASE_CREDENTIALS_PATH := path;
  FIREBASE_CREDENTIALS_BASE64 := b64;
  FIREBASE_CREDENTIALS_JSON := json;
  JWT_SECRET := "your-super-secret-key-change-this";
  JWT_ALGORITHM := "HS256";
  ACCESS_TOKEN_EXPIRE_MINUTES := 60 * 24 * 7;
  ALLOWED_ORIGINS := "http://localhost:5173,http://127.0.0.1:5173"
|}.

End Config.

(** Session A online as u1 and joined to conv1, on a server that is out
    of service. *)
Definition stalled : World flaky :=
  mkWorld {["A" := PStr "u1"]}
    (mkFlaky (mkHub [(None, "A"); (Some (PStr "A"), "A"); (Some (PStr "conv1"), "A")] []) true)
    [].

(** Sessions A and B, both in conv1 and both marked online as the same
    user u1 (two devices of one user). *)
Definition two_devices : World hub :=
  run_all
    [user_online "A" (PDict [("user_id", PStr "u1")]);
     user_online "B" (PDict [("user_id", PStr "u1")])]
    two_in_conv1.

(** * Properties *)

Local Open Scope list_scope.

Section pyval_induction.
Variable P : pyval → Prop.
Hypothesis HNone : P PNone.
Hypothesis HBool : ∀ b, P (PBool b).
Hypothesis HInt : ∀ n, P (PInt n).
Hypothesis HStr : ∀ s, P (PStr s).
Hypothesis HList : ∀ xs, Forall P xs → P (PList xs).
Hypothesis HDict : ∀ kvs, Forall (λ kv, P kv.2) kvs → P (PDict kvs).

Fixpoint pyval_nested_ind (v : pyval) : P v :=
  match v with
  | PNone => HNone
  | PBool b => HBool b
  | PInt n => HInt n
  | PStr s => HStr s
  | PList xs =>
      HList xs
        ((fix go (l : list pyval) : Forall P l :=
            match l with
            | [] => @List.Forall_nil _ P
            | x :: l' => @List.Forall_cons _ P x l' (pyval_nested_ind x) (go l')
            end) xs)
  | PDict kvs =>
      HDict kvs
        ((fix go (l : list (string * pyval)) : Forall (λ kv, P kv.2) l :=
            match l with
            | [] => @List.Forall_nil _ _
            | kv :: l' =>
                @List.Forall_cons _ (λ kv, P kv.2) kv l' (pyval_nested_ind kv.2) (go l')
            end) kvs)
  end.
End pyval_induction.

Lemma pyval_eqb_eq (x y : pyval) : pyval_eqb x y = true ↔ x = y.
Proof.
  revert y. induction x as [| a | a | a | xs IH | kvs IH] using pyval_nested_ind;
    intros [| b | b | b | ys | kvs']; simpl; try (split; [discriminate | congruence]).
  - done.
  - rewrite Bool.eqb_true_iff. split; congruence.
  - rewrite Z.eqb_eq. split; congruence.
  - rewrite String.eqb_eq. split; congruence.
  - revert ys. induction IH as [| x xs Hx _ IHxs]; intros [| y ys];
      try (split; [discriminate | congruence]); [done |].
    rewrite andb_true_iff, Hx, IHxs. split.
    + intros [-> [= ->]]. done.
    + intros [= -> ->]. done.
  - revert kvs'. induction IH as [| [k x] xs Hx _ IHxs]; intros [| [k' y] ys];
      try (split; [discriminate | congruence]); [done |].
    simpl in Hx. rewrite !andb_true_iff, String.eqb_eq, Hx, IHxs. split.
    + intros [[-> ->] [= ->]]. done.
    + intros [= -> -> ->]. done.
Qed.


(** ** Handlers on an arbitrary server *)

Section AnyTransport.
Context {T : Type} `{!Transport T}.

(** A body wrapped in [try ... except Exception as e: print(...)] always
    returns. *)
Lemma try_except_print_returns (body : M T unit) (name : string) (w : World T) :
  outcome_of (try_except body (λ e, print (LogError name e))) w = Returned tt.
Proof.
  unfold outcome_of, try_except.
  destruct (body w) as [w' [[] | e]]; reflexivity.
Qed.

(** None of the seven payload handlers lets an exception escape, whatever
    the server does. *)
Lemma handle_returns (ev : event) (sid : string) (data : pyval) (w : World T) :
  outcome_of (handle ev sid data) w = Returned tt.
Proof. destruct ev; apply try_except_print_returns. Qed.

Lemma handle_dropped (ev : event) (sid : string) (data : pyval) (w : World T) (k : string) :
  In k (required_fields ev) → supplied data k = false →
  handle ev sid data w = (dropped_world ev data w, Returned tt).
Proof.
  intros Hk Hs. unfold supplied, data_get in Hs.
  destruct data as [| b | n | s | xs | kvs]; try (by destruct ev).
  unfold dropped_world; simpl.
  destruct ev; simpl in Hk; intuition subst;
    cbv [handle user_online join_conversation leave_conversation send_message
         typing message_read voice_call_request try_except bind py_get ret py_all forallb];
    repeat match goal with
           | |- context [dict_lookup ?k kvs] => destruct (dict_lookup k kvs)
           end;
    rewrite ?Hs; simpl; rewrite ?Hs, ?andb_false_r, ?orb_true_r; simpl; try reflexivity.
Qed.

(** [disconnect] removes the session's entry before it calls the server,
    so the entry is gone even when that call raises. *)
Lemma disconnect_removes_entry (sid : string) (w : World T) :
  online_users (world_after (disconnect sid) w) !! sid = None.
Proof.
  unfold world_after, disconnect, bind, print, users_lookup, users_del, emit, on_sio, ret; simpl.
  destruct (online_users w !! sid) as [u |] eqn:E; simpl; [| done].
  destruct (sio_emit _ _ _ _ _) as [t [[] | e]]; simpl; apply lookup_delete_eq.
Qed.

End AnyTransport.

(** ** Facts about the reference server *)

Lemma pyval_eqb_refl (x : pyval) : pyval_eqb x x = true.
Proof. by apply pyval_eqb_eq. Qed.

Lemma room_eqb_eq (a b : option pyval) : room_eqb a b = true ↔ a = b.
Proof.
  destruct a as [x |], b as [y |]; simpl; try (split; [discriminate | congruence]).
  - rewrite pyval_eqb_eq. split; congruence.
  - done.
Qed.

Lemma member_eqb_eq (p q : option pyval * string) : member_eqb p q = true ↔ p = q.
Proof.
  destruct p as [r s], q as [r' s']. unfold member_eqb; simpl.
  rewrite andb_true_iff, room_eqb_eq, String.eqb_eq. split.
  - intros [-> ->]. done.
  - intros [= -> ->]. done.
Qed.

Lemma in_hub_members (room : option pyval) (s : string) (h : hub) :
  In s (hub_members room h) ↔ In (room, s) (rooms h).
Proof.
  unfold hub_members. rewrite in_map_iff. split.
  - intros [[r s'] [Hs Hin]]. simpl in Hs. subst s'.
    apply filter_In in Hin as [Hin Hr]. simpl in Hr.
    apply room_eqb_eq in Hr. by subst r.
  - intros Hin. exists (room, s). split; [done |].
    apply filter_In. split; [done |]. simpl. by apply room_eqb_eq.
Qed.

Lemma in_rooms_hub_enter (sid : string) (room : option pyval) (h : hub) (p : option pyval * string) :
  In p (rooms (hub_enter sid room h)) ↔ p = (room, sid) ∨ In p (rooms h).
Proof.
  unfold hub_enter. destruct (existsb _ _) eqn:E; simpl.
  - apply existsb_exists in E as [q [Hq Heq]]. apply member_eqb_eq in Heq. subst q.
    split; [by right |]. intros [-> | H]; done.
  - rewrite in_app_iff. simpl. split.
    + intros [H | [<- | []]]; [by right | by left].
    + intros [-> | H]; [right; by left | by left].
Qed.

Lemma outbox_hub_enter (sid : string) (room : option pyval) (h : hub) :
  outbox (hub_enter sid room h) = outbox h.
Proof. unfold hub_enter. by destruct (existsb _ _). Qed.

Lemma in_rooms_hub_leave (sid : string) (room : option pyval) (h : hub) (p : option pyval * string) :
  In p (rooms (hub_leave sid room h)) ↔ In p (rooms h) ∧ p ≠ (room, sid).
Proof.
  unfold hub_leave; simpl. rewrite filter_In, negb_true_iff.
  split; intros [Hin Hne]; split; try done.
  - intros ->. by rewrite (proj2 (member_eqb_eq _ _) eq_refl) in Hne.
  - destruct (member_eqb (room, sid) p) eqn:E; [| done].
    apply member_eqb_eq in E. by subst p.
Qed.

Lemma in_recipients (room : option pyval) (skip_sid : option string) (h : hub) (s : string) :
  In s (recipients room skip_sid h) ↔ In s (hub_members room h) ∧ skip_sid ≠ Some s.
Proof.
  unfold recipients. destruct skip_sid as [k |].
  - rewrite filter_In, negb_true_iff, String.eqb_neq. split; intros [H1 H2]; split; congruence.
  - split; [intros H; split; [done | discriminate] | by intros [H _]].
Qed.

(** ** The claims *)

(** C1. After [disconnect] runs for a session, [online_users] holds no
    entry for it (and is otherwise unchanged).  If the session was mapped
    to a user id, exactly one broadcast is added: [user_offline] carrying
    that user id, with no room (global) and no excluded session.  If the
    session had no entry, no broadcast is added. *)
Theorem disconnect_reclaims_presence (sid : string) (w : World hub) :
  let w' := world_after (disconnect sid) w in
  online_users w' !! sid = None ∧
  online_users w' = delete sid (online_users w) ∧
  match online_users w !! sid with
  | Some user_id =>
      outbox (sio w') =
        outbox (sio w) ++
          [mkEmission "user_offline" (PDict [("user_id", user_id)]) None None
             (hub_members None (sio w))]
  | None => outbox (sio w') = outbox (sio w)
  end.
Proof.
  split; [apply disconnect_removes_entry |].
  unfold world_after, disconnect, bind, print, users_lookup, users_del, emit, on_sio, ret; simpl.
  destruct (online_users w !! sid) as [u |] eqn:E; simpl; [done |].
  split; [| done]. symmetry. by apply delete_id.
Qed.

Ltac run_handler :=
  unfold world_after, outcome_of;
  cbv [handle user_online join_conversation leave_conversation send_message
       typing message_read voice_call_request connect disconnect
       try_except bind py_get ret raise emit enter_room leave_room on_sio print
       users_set users_del users_lookup py_all forallb
       sio_emit sio_enter_room sio_leave_room hub_transport].

Ltac case_payload data :=
  unfold supplied, data_get, data_get_or;
  destruct data as [| ? | ? | ? | ? | kvs]; simpl; trivial;
  repeat match goal with
         | |- context [dict_lookup ?k kvs] => destruct (dict_lookup k kvs) as [? |]; simpl; trivial
         end;
  repeat match goal with
         | |- context [truthy ?v] => destruct (truthy v) eqn:?; simpl; trivial
         end;
  repeat match goal with
         | |- context [encodable ?v] => destruct (encodable v) eqn:?; simpl; trivial
         end;
  try done.

(** What [user_online] does, case by case.  It always returns.  With a
    supplied [user_id] it sets the session's entry of [online_users] to
    that value (inserting or overwriting); then, if the line it prints
    next can be written, it adds one broadcast, [user_online] carrying
    that user id, with no room (global) and no excluded session, and if
    the line cannot be written it adds none.  With [user_id] missing or
    empty nothing is broadcast, no room changes and [online_users] is
    unchanged. *)
Lemma user_online_presence (sid : string) (data : pyval) (w : World hub) :
  let w' := world_after (user_online sid data) w in
  let user_id := data_get data "user_id" in
  outcome_of (user_online sid data) w = Returned tt ∧
  if supplied data "user_id" then
    online_users w' = <[sid := user_id]> (online_users w) ∧
    online_users w' !! sid = Some user_id ∧
    rooms (sio w') = rooms (sio w) ∧
    outbox (sio w') =
      outbox (sio w) ++
        (if encodable user_id then
           [mkEmission "user_online" (PDict [("user_id", user_id)]) None None
              (hub_members None (sio w))]
         else [])
  else online_users w' = online_users w ∧ sio w' = sio w.
Proof.
  split; [apply try_except_print_returns |].
  run_handler. case_payload data; rewrite ?app_nil_r, ?lookup_insert_eq; done.
Qed.

(** What [join_conversation] does, case by case.  With both
    [conversation_id] and [user_id] supplied it puts the session in the
    room named by the conversation id (other memberships are kept); then,
    if the line it prints next can be written, it adds one broadcast,
    [joined_conversation] carrying the conversation id and the user id,
    to that room with no excluded session, so the joiner is among its
    recipients, and if the line cannot be written it adds none.  If
    either field is missing or empty, no room changes and nothing is
    broadcast. *)
Lemma join_conversation_room (sid : string) (data : pyval) (w : World hub) :
  let w' := world_after (join_conversation sid data) w in
  let conversation_id := data_get data "conversation_id" in
  let user_id := data_get data "user_id" in
  if supplied data "conversation_id" && supplied data "user_id" then
    rooms (sio w') = rooms (hub_enter sid (Some conversation_id) (sio w)) ∧
    (∀ p, In p (rooms (sio w')) ↔ p = (Some conversation_id, sid) ∨ In p (rooms (sio w))) ∧
    outbox (sio w') =
      outbox (sio w) ++
        (if encodable user_id && encodable conversation_id then
           [mkEmission "joined_conversation"
              (PDict [("conversation_id", conversation_id); ("user_id", user_id)])
              (Some conversation_id) None
              (hub_members (Some conversation_id) (sio w'))]
         else []) ∧
    In sid (hub_members (Some conversation_id) (sio w')) ∧
    online_users w' = online_users w
  else sio w' = sio w ∧ online_users w' = online_users w.
Proof.
  run_handler. case_payload data.
  all: split_and!; try done.
  all: try (intros q; apply in_rooms_hub_enter).
  all: try (rewrite ?app_nil_r; by rewrite outbox_hub_enter).
  all: apply in_hub_members, in_rooms_hub_enter; by left.
Qed.

(** C7. [leave_conversation] never broadcasts and never touches
    [online_users], whatever the payload.  With [conversation_id]
    supplied it takes the session out of the room named by it and leaves
    every other membership alone; nothing is asked of [user_id], which
    may be absent or empty. *)
Theorem leave_conversation_silent (sid : string) (data : pyval) (w : World hub) :
  let w' := world_after (leave_conversation sid data) w in
  let conversation_id := data_get data "conversation_id" in
  outbox (sio w') = outbox (sio w) ∧
  online_users w' = online_users w ∧
  (supplied data "conversation_id" = true →
     rooms (sio w') = rooms (hub_leave sid (Some conversation_id) (sio w)) ∧
     ¬ In sid (hub_members (Some conversation_id) (sio w')) ∧
     (∀ p, In p (rooms (sio w')) ↔
           In p (rooms (sio w)) ∧ p ≠ (Some conversation_id, sid))).
Proof.
  run_handler. case_payload data.
  all: split_and!; try done; intros _; split_and!; try done.
  all: try (rewrite in_hub_members, in_rooms_hub_leave; by intros [_ ?]).
  all: intros q; apply in_rooms_hub_leave.
Qed.

(** C3. [typing] with [conversation_id] and [user_id] supplied adds one
    broadcast, [user_typing], to the room named by the conversation id
    with the originating session excluded: the sender is never among the
    recipients, every other member of the room is.  The payload has the
    three keys [conversation_id], [user_id] and [is_typing], the last
    holding the inbound value when the key is present and [True] when it
    is absent. *)
Theorem typing_excludes_sender (sid : string) (data : pyval) (w : World hub) :
  supplied data "conversation_id" = true →
  supplied data "user_id" = true →
  let w' := world_after (typing sid data) w in
  let conversation_id := data_get data "conversation_id" in
  let user_id := data_get data "user_id" in
  let is_typing := data_get_or data "is_typing" (PBool true) in
  let to := recipients (Some conversation_id) (Some sid) (sio w) in
  outbox (sio w') =
    outbox (sio w) ++
      [mkEmission "user_typing"
         (PDict [("conversation_id", conversation_id);
                 ("user_id", user_id);
                 ("is_typing", is_typing)])
         (Some conversation_id) (Some sid) to] ∧
  ¬ In sid to ∧
  (∀ s, In s to ↔ In s (hub_members (Some conversation_id) (sio w)) ∧ s ≠ sid) ∧
  rooms (sio w') = rooms (sio w) ∧
  online_users w' = online_users w.
Proof.
  intros Hc Hu. cbv zeta.
  assert (Hto : ∀ c s, In s (recipients (Some c) (Some sid) (sio w)) ↔
                       In s (hub_members (Some c) (sio w)) ∧ s ≠ sid).
  { intros c s. rewrite in_recipients. split; intros [? ?]; split; congruence. }
  split_and!; [| intros Hin; by apply Hto in Hin as [_ ?] | apply Hto | |];
    revert Hc Hu; run_handler; case_payload data.
Qed.

(** What [send_message] does with [conversation_id] supplied.  If the
    line it prints first can be written, it adds one broadcast,
    [new_message], whose payload is the inbound payload itself, to the
    room named by the conversation id with no session excluded: its
    recipients are all the members of the room, the sender included when
    it is a member.  If the line cannot be written it adds none. *)
Lemma send_message_relays_payload (sid : string) (data : pyval) (w : World hub) :
  supplied data "conversation_id" = true →
  let w' := world_after (send_message sid data) w in
  let conversation_id := data_get data "conversation_id" in
  outbox (sio w') =
    outbox (sio w) ++
      (if encodable conversation_id then
         [mkEmission "new_message" data (Some conversation_id) None
            (hub_members (Some conversation_id) (sio w))]
       else []) ∧
  (In (Some conversation_id, sid) (rooms (sio w)) →
   In sid (hub_members (Some conversation_id) (sio w))) ∧
  rooms (sio w') = rooms (sio w) ∧
  online_users w' = online_users w.
Proof.
  intros Hc. cbv zeta.
  split_and!; [| apply in_hub_members | |]; revert Hc; run_handler; case_payload data.
  intros _. by rewrite app_nil_r.
Qed.

(** C10. [message_read] tests the truth value of [conversation_id],
    [message_id] and [user_id].  When all three are truthy it adds one
    broadcast, [message_read] carrying exactly the message id and the user
    id, to the room named by the conversation id with no session
    excluded.  When any of them is falsy nothing is broadcast and nothing
    changes on the server; in particular a [message_id] that is present
    but is [0] or [False] is dropped. *)
Theorem message_read_receipt (sid : string) (data : pyval) (w : World hub) :
  let w' := world_after (message_read sid data) w in
  let conversation_id := data_get data "conversation_id" in
  let message_id := data_get data "message_id" in
  let user_id := data_get data "user_id" in
  (if truthy conversation_id && truthy message_id && truthy user_id then
     is_dict data = true ∧
     outbox (sio w') =
       outbox (sio w) ++
         [mkEmission "message_read"
            (PDict [("message_id", message_id); ("user_id", user_id)])
            (Some conversation_id) None
            (hub_members (Some conversation_id) (sio w))] ∧
     rooms (sio w') = rooms (sio w)
   else sio w' = sio w) ∧
  online_users w' = online_users w ∧
  (message_id = PInt 0 ∨ message_id = PBool false → sio w' = sio w).
Proof.
  cbv zeta. split_and!.
  - run_handler. case_payload data.
  - run_handler. case_payload data.
  - run_handler. unfold data_get. destruct data as [| ? | ? | ? | ? | kvs]; simpl; try done.
    destruct (dict_lookup "message_id" kvs) as [m |]; [| by intros [? | ?]].
    intros [-> | ->];
      destruct (dict_lookup "conversation_id" kvs) as [c |];
      destruct (dict_lookup "user_id" kvs) as [u |]; simpl;
      try destruct (truthy c); try done.
Qed.

(** C2. For each of the seven payload handlers and every payload in which
    one of the handler's required fields is missing or empty, the handler
    returns normally, the server is exactly as before (no broadcast was
    added, no room changed) and [online_users] is unchanged. *)
Theorem rejected_payload_is_silent
    (ev : event) (sid : string) (data : pyval) (w : World hub) (k : string) :
  In k (required_fields ev) →
  supplied data k = false →
  let w' := world_after (handle ev sid data) w in
  outcome_of (handle ev sid data) w = Returned tt ∧
  sio w' = sio w ∧
  outbox (sio w') = outbox (sio w) ∧
  emitted_names ev sid data w = [] ∧
  online_users w' = online_users w.
Proof.
  intros Hk Hs. cbv zeta. unfold emitted_names, world_after, outcome_of.
  rewrite (handle_dropped ev sid data w k Hk Hs). simpl.
  assert (Hsio : sio (dropped_world ev data w) = sio w)
    by (unfold dropped_world; by destruct (is_dict data)).
  assert (Hon : online_users (dropped_world ev data w) = online_users w)
    by (unfold dropped_world; by destruct (is_dict data)).
  rewrite Hsio, Hon. split_and!; try done.
  by rewrite drop_all.
Qed.

(** The broadcasts each handler adds, by name: one, under the name the
    handler passes to [sio.emit], when every required field is supplied
    and the line printed before the call can be written; none otherwise. *)
Lemma emitted_names_table (ev : event) (sid : string) (data : pyval) (w : World hub) :
  emitted_names ev sid data w =
    if well_formed ev data && prints_before_emit ev data then
      match broadcast_name ev with Some name => [name] | None => [] end
    else [].
Proof.
  unfold emitted_names, well_formed, prints_before_emit.
  destruct ev; run_handler; simpl; case_payload data;
    rewrite ?outbox_hub_enter, ?drop_all, ?drop_app_length; done.
Qed.

(** C8, with the names the handlers pass to [sio.emit].  Whatever the
    four fan-out handlers re-broadcast goes out under these names:
    [send_message] as [new_message], [typing] as [user_typing],
    [message_read] as [message_read] and [voice_call_request] as
    [incoming_call].  Only [message_read] keeps the name of the inbound
    event. *)
Theorem rebroadcast_event_names (sid : string) (data : pyval) (w : World hub) :
  Forall (λ name, name = "new_message") (emitted_names EvSendMessage sid data w) ∧
  Forall (λ name, name = "user_typing") (emitted_names EvTyping sid data w) ∧
  Forall (λ name, name = "message_read") (emitted_names EvMessageRead sid data w) ∧
  Forall (λ name, name = "incoming_call") (emitted_names EvVoiceCallRequest sid data w).
Proof.
  split_and!; rewrite emitted_names_table;
    destruct (_ && _); simpl; repeat constructor.
Qed.

(** The four names are in use: with A and B in conv1, each of the four
    handlers re-broadcasts a well-formed event of A under its name. *)
Example rebroadcast_event_names_in_use :
  let ids := [("conversation_id", PStr "conv1"); ("user_id", PStr "u1");
              ("message_id", PInt 7); ("caller_id", PStr "u1")] in
  emitted_names EvSendMessage "A" (PDict ids) two_in_conv1 = ["new_message"] ∧
  emitted_names EvTyping "A" (PDict ids) two_in_conv1 = ["user_typing"] ∧
  emitted_names EvMessageRead "A" (PDict ids) two_in_conv1 = ["message_read"] ∧
  emitted_names EvVoiceCallRequest "A" (PDict ids) two_in_conv1 = ["incoming_call"].
Proof. split_and!; reflexivity. Qed.

(** C8 does not hold as stated: a [send_message] with a conversation id, sent into
    the empty world, is re-broadcast as [new_message], which is not the
    name of the inbound event. *)
Lemma send_message_not_rebroadcast_under_its_name :
  let data := PDict [("conversation_id", PStr "conv1"); ("text", PStr "hi")] in
  let names := emitted_names EvSendMessage "A" data empty_world in
  inbound_name EvSendMessage = "send_message" ∧
  names = ["new_message"] ∧
  ¬ (∀ name, In name names → name = inbound_name EvSendMessage).
Proof.
  cbv zeta. split_and!; [reflexivity | reflexivity |].
  intros H. specialize (H "new_message" (or_introl eq_refl)). discriminate H.
Qed.

(** C9 fails for the lifecycle handlers. With session A marked online and the server
    out of service, the exception raised by [sio.emit] leaves [connect]
    and [disconnect], which have no [try]; the same exception met by a
    payload handler is caught and logged. *)
Theorem lifecycle_exception_escapes :
  outcome_of (connect "A" PNone) out_of_service
    = Raised (TransportError "server out of service") ∧
  outcome_of (disconnect "A") out_of_service
    = Raised (TransportError "server out of service") ∧
  (user_online "A" (PDict [("user_id", PStr "u1")]) out_of_service).2 = Returned tt ∧
  stdout (world_after (user_online "A" (PDict [("user_id", PStr "u1")])) out_of_service)
    = [LogOnline (PStr "u1") "A";
       LogError "user_online" (TransportError "server out of service")].
Proof. split_and!; reflexivity. Qed.

(** ** The claims at concrete inputs *)

(** C2 at a [send_message] without [conversation_id], sent by A while A
    and B are in conv1: nothing is broadcast. *)
Lemma rejected_payload_is_silent_witness :
  let data := PDict [("text", PStr "hi")] in
  In "conversation_id" (required_fields EvSendMessage) ∧
  supplied data "conversation_id" = false ∧
  outcome_of (handle EvSendMessage "A" data) two_in_conv1 = Returned tt ∧
  outbox (sio (world_after (handle EvSendMessage "A" data) two_in_conv1))
    = outbox (sio two_in_conv1) ∧
  emitted_names EvSendMessage "A" data two_in_conv1 = [].
Proof.
  intros data.
  assert (Hk : In "conversation_id" (required_fields EvSendMessage)) by (simpl; auto).
  assert (Hs : supplied data "conversation_id" = false) by reflexivity.
  destruct (rejected_payload_is_silent EvSendMessage "A" data two_in_conv1
              "conversation_id" Hk Hs) as (Hret & _ & Hout & Hnames & _).
  split_and!; assumption.
Defined.

(** C3 at the scenario of A and B in conv1: when A types, the broadcast
    goes to B alone. *)
Lemma typing_excludes_sender_witness :
  let data := PDict [("conversation_id", PStr "conv1"); ("user_id", PStr "u1");
                     ("is_typing", PBool true)] in
  supplied data "conversation_id" = true ∧
  supplied data "user_id" = true ∧
  outbox (sio (world_after (typing "A" data) two_in_conv1)) =
    outbox (sio two_in_conv1) ++
      [mkEmission "user_typing" data (Some (PStr "conv1")) (Some "A") ["B"]].
Proof.
  intros data.
  assert (Hc : supplied data "conversation_id" = true) by reflexivity.
  assert (Hu : supplied data "user_id" = true) by reflexivity.
  split_and!; [exact Hc | exact Hu |].
  exact (proj1 (typing_excludes_sender "A" data two_in_conv1 Hc Hu)).
Defined.

(** [send_message] at the scenario of A and B in conv1: when A sends a
    message, both A and B receive [new_message] with the payload as sent. *)
Lemma send_message_relays_payload_witness :
  let data := PDict [("conversation_id", PStr "conv1"); ("text", PStr "hi")] in
  supplied data "conversation_id" = true ∧
  outbox (sio (world_after (send_message "A" data) two_in_conv1)) =
    outbox (sio two_in_conv1) ++
      [mkEmission "new_message" data (Some (PStr "conv1")) None ["A"; "B"]].
Proof.
  intros data.
  assert (Hc : supplied data "conversation_id" = true) by reflexivity.
  split; [exact Hc |].
  exact (proj1 (send_message_relays_payload "A" data two_in_conv1 Hc)).
Defined.

(** C7 at a [leave_conversation] that carries no [user_id]: A leaves
    conv1, B stays, nothing is broadcast. *)
Lemma leave_conversation_silent_witness :
  let data := PDict [("conversation_id", PStr "conv1")] in
  let w' := world_after (leave_conversation "A" data) two_in_conv1 in
  supplied data "conversation_id" = true ∧
  supplied data "user_id" = false ∧
  outbox (sio w') = outbox (sio two_in_conv1) ∧
  ¬ In "A" (hub_members (Some (PStr "conv1")) (sio w')) ∧
  hub_members (Some (PStr "conv1")) (sio w') = ["B"].
Proof.
  intros data w'.
  assert (Hc : supplied data "conversation_id" = true) by reflexivity.
  destruct (leave_conversation_silent "A" data two_in_conv1) as (Hout & _ & Hleave).
  destruct (Hleave Hc) as (_ & Hgone & _).
  split_and!; [exact Hc | reflexivity | exact Hout | exact Hgone | reflexivity].
Defined.

(** C10 at a read receipt whose [message_id] is [0]: it is dropped. *)
Lemma message_read_receipt_witness :
  let data := PDict [("conversation_id", PStr "conv1"); ("message_id", PInt 0);
                     ("user_id", PStr "u1")] in
  data_get data "message_id" = PInt 0 ∧
  sio (world_after (message_read "A" data) two_in_conv1) = sio two_in_conv1.
Proof.
  intros data.
  assert (Hm : data_get data "message_id" = PInt 0) by reflexivity.
  split; [exact Hm |].
  destruct (message_read_receipt "A" data two_in_conv1) as (_ & _ & Hzero).
  exact (Hzero (or_introl Hm)).
Defined.

(** The disconnect scenario: A, marked online as u1, disconnects; one
    global [user_offline] for u1 is broadcast and A's entry is gone. *)
Example disconnect_scenario :
  let w := world_after (user_online "A" (PDict [("user_id", PStr "u1")])) two_in_conv1 in
  let w' := world_after (disconnect "A") w in
  online_users w !! "A" = Some (PStr "u1") ∧
  online_users w' !! "A" = None ∧
  outbox (sio w') =
    outbox (sio w) ++
      [mkEmission "user_offline" (PDict [("user_id", PStr "u1")]) None None ["A"; "B"]].
Proof. split_and!; reflexivity. Qed.

(** A payload that is not a dictionary: [data.get] raises inside the
    [try], the handler logs the error and returns without a broadcast. *)
Example send_message_not_a_dict :
  send_message "A" (PStr "hi") empty_world =
    (mkWorld ∅ (mkHub [] [])
       [LogError "send_message" (AttributeError "get")], Returned tt).
Proof. reflexivity. Qed.

(** When the server closes a session, nothing of it is left: no entry in
    [online_users] and no room membership. *)
Lemma session_close_reclaims (sid : string) (w : World hub) :
  let w' := world_after (session_close sid) w in
  online_users w' !! sid = None ∧ ∀ room, ¬ In sid (hub_members room (sio w')).
Proof.
  cbv zeta. unfold session_close. run_handler. simpl.
  destruct (online_users w !! sid) as [u |] eqn:E; simpl.
  all: split; [by rewrite ?lookup_delete_eq |].
  all: intros room Hin; apply in_hub_members in Hin; simpl in Hin.
  all: apply filter_In in Hin as [_ Hne]; simpl in Hne.
  all: by rewrite String.eqb_refl in Hne.
Qed.

(** * Further properties of the relay *)

Ltac case_server :=
  repeat match goal with
         | |- context [sio_emit ?a ?b ?c ?d ?t] =>
             destruct (sio_emit a b c d t) as [? [[] | ?]]; simpl
         | |- context [sio_enter_room ?a ?b ?t] =>
             destruct (sio_enter_room a b t) as [? [[] | ?]]; simpl
         | |- context [sio_leave_room ?a ?b ?t] =>
             destruct (sio_leave_room a b t) as [? [[] | ?]]; simpl
         end.

Ltac run_any :=
  unfold world_after, outcome_of;
  cbv [handle user_online join_conversation leave_conversation send_message
       typing message_read voice_call_request connect disconnect
       try_except bind py_get ret raise emit enter_room leave_room on_sio print
       users_set users_del users_lookup py_all forallb].

Section Presence.
Context {T : Type} `{!Transport T}.

(** [user_online] writes the entry before it calls the server. *)
Lemma user_online_registers (sid : string) (data : pyval) (w : World T) :
  supplied data "user_id" = true →
  online_users (world_after (user_online sid data) w)
    = <[sid := data_get data "user_id"]> (online_users w).
Proof.
  run_any. case_payload data; intros _; case_server; done.
Qed.

Lemma user_online_rejected (sid : string) (data : pyval) (w : World T) :
  supplied data "user_id" = false →
  online_users (world_after (user_online sid data) w) = online_users w.
Proof.
  run_any. case_payload data; intros ?; case_server; done.
Qed.

Lemma disconnect_deletes (sid : string) (w : World T) :
  online_users (world_after (disconnect sid) w) = delete sid (online_users w).
Proof.
  run_any. simpl.
  destruct (online_users w !! sid) as [u |] eqn:E; simpl.
  - case_server; done.
  - symmetry. by apply delete_id.
Qed.

(** X1. On any server, only [user_online] writes [online_users] among the
    seven payload handlers: every other one leaves the dictionary as it
    was, for every payload and whether or not the server raises. *)
Theorem presence_written_only_by_user_online
    (ev : event) (sid : string) (data : pyval) (w : World T) :
  ev ≠ EvUserOnline →
  online_users (world_after (handle ev sid data) w) = online_users w.
Proof.
  intros Hev. destruct ev; try congruence; clear Hev;
    run_any; case_payload data; case_server; done.
Qed.

(** X2. On any server, [connect], [user_online] and [disconnect] for one
    session leave the entry of every other session as it was. *)
Theorem presence_of_other_sessions_kept
    (sid other : string) (environ data : pyval) (w : World T) :
  other ≠ sid →
  online_users (world_after (connect sid environ) w) !! other = online_users w !! other ∧
  online_users (world_after (user_online sid data) w) !! other = online_users w !! other ∧
  online_users (world_after (disconnect sid) w) !! other = online_users w !! other.
Proof.
  intros Hne. split_and!.
  - run_any. simpl. case_server; done.
  - destruct (supplied data "user_id") eqn:E.
    + rewrite user_online_registers by done. by rewrite lookup_insert_ne.
    + by rewrite user_online_rejected.
  - rewrite disconnect_deletes. by rewrite lookup_delete_ne.
Qed.

(** X3. On any server, a [user_online] with a supplied [user_id] returns
    normally and leaves the session mapped to that user id, even when the
    broadcast raises: the entry is written before [sio.emit] is called. *)
Theorem presence_recorded_despite_failed_broadcast
    (sid : string) (data : pyval) (w : World T) :
  supplied data "user_id" = true →
  outcome_of (user_online sid data) w = Returned tt ∧
  online_users (world_after (user_online sid data) w) !! sid
    = Some (data_get data "user_id").
Proof.
  intros Hs. split; [apply try_except_print_returns |].
  rewrite user_online_registers by done. apply lookup_insert_eq.
Qed.

(** X4. [health()] changes nothing, and after a [user_online] with a
    supplied [user_id] it reports one session more than before when the
    session was not yet marked online and the same number when it was:
    sessions are counted, not users. *)
Theorem health_after_user_online (sid : string) (data : pyval) (w : World T) :
  supplied data "user_id" = true →
  let n := Z.of_nat (size (online_users w)) in
  let w' := world_after (user_online sid data) w in
  health w = (w, Returned (health_report n)) ∧
  outcome_of health w' =
    Returned (health_report
                (match online_users w !! sid with Some _ => n | None => n + 1 end)%Z).
Proof.
  intros Hs. cbv zeta. split; [done |].
  unfold outcome_of, health; simpl. rewrite user_online_registers by done.
  rewrite map_size_insert. destruct (online_users w !! sid); simpl; [done |].
  by rewrite Nat2Z.inj_succ.
Qed.

(** X5. After [disconnect], [health()] reports one session fewer when the
    session was marked online and the same number otherwise, on any
    server and even when the [user_offline] broadcast raises. *)
Theorem health_after_disconnect (sid : string) (w : World T) :
  let n := Z.of_nat (size (online_users w)) in
  let w' := world_after (disconnect sid) w in
  outcome_of health w' =
    Returned (health_report
                (match online_users w !! sid with Some _ => n - 1 | None => n end)%Z).
Proof.
  cbv zeta. unfold outcome_of, health; simpl. rewrite disconnect_deletes.
  rewrite map_size_delete. destruct (online_users w !! sid) eqn:E; simpl; [| done].
  assert (size (online_users w) ≠ 0).
  { intros H0. apply map_size_empty_iff in H0. rewrite H0 in E. by rewrite lookup_empty in E. }
  replace (Z.of_nat (Nat.pred (size (online_users w))))
    with (Z.of_nat (size (online_users w)) - 1)%Z by lia.
  done.
Qed.

End Presence.

(** ** On the reference server *)

Lemma user_online_on_hub (sid : string) (data : pyval) (w : World hub) :
  supplied data "user_id" = true →
  user_online sid data w =
    if encodable (data_get data "user_id") then
      (mkWorld (<[sid := data_get data "user_id"]> (online_users w))
         (hub_emit "user_online" (PDict [("user_id", data_get data "user_id")])
            None None (sio w))
         (stdout w ++ [LogOnline (data_get data "user_id") sid]),
       Returned tt)
    else
      (mkWorld (<[sid := data_get data "user_id"]> (online_users w))
         (sio w)
         (stdout w ++ [LogError "user_online" UnicodeEncodeError]),
       Returned tt).
Proof. run_handler. case_payload data. Qed.

Lemma disconnect_when_absent (sid : string) (w : World hub) :
  online_users w !! sid = None →
  disconnect sid w =
    (mkWorld (online_users w) (sio w) (stdout w ++ [LogDisconnected sid]), Returned tt).
Proof. intros E. run_handler. simpl. by rewrite E. Qed.

Lemma hub_members_enter_fresh (sid : string) (room : option pyval) (h : hub) :
  ¬ In sid (hub_members room h) →
  rooms (hub_enter sid room h) = rooms h ++ [(room, sid)] ∧
  hub_members room (hub_enter sid room h) = hub_members room h ++ [sid].
Proof.
  intros Hfresh. unfold hub_enter.
  destruct (existsb _ _) eqn:E.
  - exfalso. apply Hfresh. apply existsb_exists in E as [q [Hq Heq]].
    apply member_eqb_eq in Heq. subst q. by apply in_hub_members.
  - split; [done |]. unfold hub_members; simpl.
    rewrite List.filter_app, List.map_app. simpl.
    by rewrite (proj2 (room_eqb_eq room room) eq_refl).
Qed.

Lemma hub_leave_after_fresh_enter (sid : string) (room : option pyval) (h : hub) :
  ¬ In sid (hub_members room h) →
  List.filter (λ p, negb (member_eqb (room, sid) p)) (rooms h ++ [(room, sid)]) = rooms h.
Proof.
  intros Hfresh. rewrite List.filter_app. simpl.
  rewrite (proj2 (member_eqb_eq (room, sid) (room, sid)) eq_refl). simpl.
  rewrite app_nil_r. apply forallb_filter_id. apply forallb_forall.
  intros p Hp. apply negb_true_iff. destruct (member_eqb (room, sid) p) eqn:E; [| done].
  apply member_eqb_eq in E. subst p. exfalso. apply Hfresh. by apply in_hub_members.
Qed.

(** X6. [voice_call_request] with [conversation_id] and [caller_id]
    supplied adds one broadcast, [incoming_call] carrying exactly the
    conversation id and the caller id, to the room named by the
    conversation id with the calling session excluded: the caller is never
    rung, every other member of the room is.  No room and no presence
    entry changes. *)
Theorem voice_call_request_excludes_caller (sid : string) (data : pyval) (w : World hub) :
  supplied data "conversation_id" = true →
  supplied data "caller_id" = true →
  let w' := world_after (voice_call_request sid data) w in
  let conversation_id := data_get data "conversation_id" in
  let caller_id := data_get data "caller_id" in
  let to := recipients (Some conversation_id) (Some sid) (sio w) in
  outbox (sio w') =
    outbox (sio w) ++
      [mkEmission "incoming_call"
         (PDict [("conversation_id", conversation_id); ("caller_id", caller_id)])
         (Some conversation_id) (Some sid) to] ∧
  ¬ In sid to ∧
  (∀ s, In s to ↔ In s (hub_members (Some conversation_id) (sio w)) ∧ s ≠ sid) ∧
  rooms (sio w') = rooms (sio w) ∧
  online_users w' = online_users w.
Proof.
  intros Hc Hu. cbv zeta.
  assert (Hto : ∀ c s, In s (recipients (Some c) (Some sid) (sio w)) ↔
                       In s (hub_members (Some c) (sio w)) ∧ s ≠ sid).
  { intros c s. rewrite in_recipients. split; intros [? ?]; split; congruence. }
  split_and!; [| intros Hin; by apply Hto in Hin as [_ ?] | apply Hto | |];
    revert Hc Hu; run_handler; case_payload data.
Qed.

(** X7. [connect] adds one broadcast, [connection_response] with status
    [connected] and the session id, addressed to the room named by the
    session id; it touches no room and no presence entry, and ignores
    [environ].  When the server has registered the session first, the
    session itself receives it. *)
Theorem connect_greets_session (sid : string) (environ : pyval) (w : World hub) :
  let greeting to :=
    mkEmission "connection_response"
      (PDict [("status", PStr "connected"); ("sid", PStr sid)])
      (Some (PStr sid)) None to in
  let w' := world_after (connect sid environ) w in
  let w'' := world_after (session_open sid environ) w in
  outcome_of (connect sid environ) w = Returned tt ∧
  outbox (sio w') = outbox (sio w) ++ [greeting (hub_members (Some (PStr sid)) (sio w))] ∧
  rooms (sio w') = rooms (sio w) ∧
  online_users w' = online_users w ∧
  outbox (sio w'') =
    outbox (sio w) ++ [greeting (hub_members (Some (PStr sid)) (sio w''))] ∧
  In sid (hub_members (Some (PStr sid)) (sio w'')).
Proof.
  cbv zeta. unfold session_open, hub_connect. run_handler. simpl.
  split_and!; try done.
  - by rewrite !outbox_hub_enter.
  - apply in_hub_members, in_rooms_hub_enter. by left.
Qed.

(** X8. A second [disconnect] of the same session is silent: the first
    one has removed the entry, so the second adds no broadcast and
    changes neither [online_users] nor any room. *)
Theorem second_disconnect_is_silent (sid : string) (w : World hub) :
  let w1 := world_after (disconnect sid) w in
  let w2 := world_after (disconnect sid) w1 in
  outcome_of (disconnect sid) w1 = Returned tt ∧
  sio w2 = sio w1 ∧
  online_users w2 = online_users w1.
Proof.
  cbv zeta.
  pose proof (disconnect_removes_entry sid w) as Hgone.
  set (w1 := world_after (disconnect sid) w) in *.
  unfold world_after, outcome_of.
  by rewrite (disconnect_when_absent sid w1 Hgone).
Qed.

(** X9. Two [user_online] events on one session, each with a supplied
    [user_id]: the second overwrites the first and the number of entries
    does not grow.  The only broadcasts added are [user_online] ones, one
    for each of the two user ids whose log line can be written, in order;
    no [user_offline] is sent for the user that was replaced. *)
Theorem user_online_overwrites (sid : string) (first second : pyval) (w : World hub) :
  supplied first "user_id" = true →
  supplied second "user_id" = true →
  let w1 := world_after (user_online sid first) w in
  let w2 := world_after (user_online sid second) w1 in
  let announce user_id :=
    mkEmission "user_online" (PDict [("user_id", user_id)]) None None
      (hub_members None (sio w)) in
  online_users w2 = <[sid := data_get second "user_id"]> (online_users w) ∧
  online_users w2 !! sid = Some (data_get second "user_id") ∧
  size (online_users w2) = size (online_users w1) ∧
  outbox (sio w2) =
    outbox (sio w) ++
      (if encodable (data_get first "user_id")
       then [announce (data_get first "user_id")] else []) ++
      (if encodable (data_get second "user_id")
       then [announce (data_get second "user_id")] else []).
Proof.
  intros H1 H2. cbv zeta. unfold world_after.
  rewrite (user_online_on_hub sid first w H1).
  destruct (encodable (data_get first "user_id")); simpl;
    rewrite (user_online_on_hub sid second _ H2);
    destruct (encodable (data_get second "user_id")); simpl.
  all: split_and!;
    [apply insert_insert_eq | apply lookup_insert_eq
    | rewrite map_size_insert; by rewrite lookup_insert_eq
    | rewrite <- ?app_assoc, ?app_nil_r; done].
Qed.

(** X10. Joining a conversation and then leaving it restores the rooms:
    for a session that was not in the room, a [join_conversation] with
    both fields supplied followed by a [leave_conversation] for the same
    conversation id leaves every room exactly as it was.  The leave adds
    no broadcast; the join adds one [joined_conversation], delivered to
    the former members and to the joiner, when its log line can be
    written and none when it cannot. *)
Theorem join_then_leave_restores_rooms
    (sid : string) (joining leaving : pyval) (w : World hub) :
  supplied joining "conversation_id" = true →
  supplied joining "user_id" = true →
  data_get leaving "conversation_id" = data_get joining "conversation_id" →
  ¬ In sid (hub_members (Some (data_get joining "conversation_id")) (sio w)) →
  let conversation_id := data_get joining "conversation_id" in
  let user_id := data_get joining "user_id" in
  let w1 := world_after (join_conversation sid joining) w in
  let w2 := world_after (leave_conversation sid leaving) w1 in
  rooms (sio w2) = rooms (sio w) ∧
  online_users w2 = online_users w ∧
  outbox (sio w2) =
    outbox (sio w) ++
      (if encodable user_id && encodable conversation_id then
         [mkEmission "joined_conversation"
            (PDict [("conversation_id", conversation_id); ("user_id", user_id)])
            (Some conversation_id) None
            (hub_members (Some conversation_id) (sio w) ++ [sid])]
       else []).
Proof.
  intros Hc Hu Hsame Hfresh. cbv zeta.
  assert (Hl : supplied leaving "conversation_id" = true)
    by (unfold supplied; by rewrite Hsame).
  destruct (hub_members_enter_fresh sid _ (sio w) Hfresh) as [Hrooms Hmem].
  pose proof (hub_leave_after_fresh_enter sid _ (sio w) Hfresh) as Hback.
  revert Hc Hu Hl Hsame Hfresh Hrooms Hmem Hback.
  run_handler. unfold supplied, data_get.
  destruct joining as [| ? | ? | ? | ? | kj]; simpl; try done.
  destruct leaving as [| ? | ? | ? | ? | kl]; simpl; try done.
  destruct (dict_lookup "conversation_id" kj) as [c |]; simpl; try done.
  destruct (dict_lookup "user_id" kj) as [u |]; simpl; try done.
  destruct (dict_lookup "conversation_id" kl) as [c' |]; simpl; try done.
  intros Hc Hu Hl -> Hfresh Hrooms Hmem Hback.
  rewrite Hc, Hu. simpl.
  destruct (encodable u); destruct (encodable c); simpl; rewrite ?Hc; simpl;
    repeat match goal with
           | |- context [dict_lookup ?k kl] => destruct (dict_lookup k kl) as [? |]; simpl
           end;
    repeat match goal with
           | |- context [encodable ?v] => destruct (encodable v); simpl
           end;
    rewrite ?Hrooms, ?Hback, ?Hmem, ?outbox_hub_enter, ?app_nil_r; done.
Qed.

(** X11. A payload that is not a dictionary: on any server, each of the
    seven payload handlers makes no call on the server, leaves
    [online_users] alone, prints one error line under its own name for the
    failed [data.get], and returns normally. *)
Theorem non_dict_payload_is_logged
    {T : Type} `{!Transport T} (ev : event) (sid : string) (data : pyval) (w : World T) :
  is_dict data = false →
  handle ev sid data w =
    (mkWorld (online_users w) (sio w)
       (stdout w ++ [LogError (inbound_name ev) (AttributeError "get")]),
     Returned tt).
Proof.
  intros Hd. destruct data; try discriminate Hd; by destruct ev.
Qed.

(** X12. Only [join_conversation] and [leave_conversation] change room
    membership: each of the other five payload handlers leaves every room
    as it was, for every payload. *)
Theorem rooms_changed_only_by_join_and_leave
    (ev : event) (sid : string) (data : pyval) (w : World hub) :
  ev ≠ EvJoinConversation →
  ev ≠ EvLeaveConversation →
  rooms (sio (world_after (handle ev sid data) w)) = rooms (sio w).
Proof.
  intros Hj Hl. destruct ev; try congruence; clear Hj Hl;
    run_handler; case_payload data.
Qed.

(** X13. Every handler, lifecycle or payload, adds at most one broadcast
    per event and never removes or rewrites an earlier one. *)
Theorem at_most_one_broadcast_per_event
    (ev : event) (sid : string) (environ data : pyval) (w : World hub) :
  let grows_by_at_most_one (w' : World hub) :=
    ∃ new, outbox (sio w') = outbox (sio w) ++ new ∧ (List.length new ≤ 1)%nat in
  grows_by_at_most_one (world_after (connect sid environ) w) ∧
  grows_by_at_most_one (world_after (disconnect sid) w) ∧
  grows_by_at_most_one (world_after (handle ev sid data) w).
Proof.
  cbv zeta.
  assert (Hnone : ∃ new, outbox (sio w) = outbox (sio w) ++ new ∧ (List.length new ≤ 1)%nat).
  { exists []. split; [by rewrite app_nil_r | simpl; lia]. }
  split_and!.
  - run_handler. simpl. eexists [_]. split; [reflexivity | simpl; lia].
  - run_handler. simpl. destruct (online_users w !! sid); simpl; [| done].
    eexists [_]. split; [reflexivity | simpl; lia].
  - destruct ev; run_handler; case_payload data;
      rewrite ?outbox_hub_enter;
      first [ eexists [_]; split; [reflexivity | simpl; lia] | exact Hnone ].
Qed.

(** X14. On any server and for any payload, none of the seven payload
    handlers raises: whatever happens inside, the handler returns. *)
Theorem payload_handlers_never_raise
    {T : Type} `{!Transport T} (ev : event) (sid : string) (data : pyval) (w : World T) :
  ∃ w', handle ev sid data w = (w', Returned tt).
Proof.
  pose proof (handle_returns ev sid data w) as H. unfold outcome_of in H.
  destruct (handle ev sid data w) as [w' r]. simpl in H. subst r. by exists w'.
Qed.

(** X15. While the server is out of service, a payload handler given all
    its required fields changes nothing on the server, prints a failure
    as its last line under its own name, and returns normally.  The
    failure printed is the server's, except in [user_online] and
    [send_message], which print a payload value before they call the
    server: when that line cannot be written, its encoding error is the
    failure printed and the server is never called. *)
Theorem outage_is_logged_by_handler
    (ev : event) (sid : string) (data : pyval) (w : World flaky) :
  fl_down (sio w) = true →
  well_formed ev data = true →
  let w' := world_after (handle ev sid data) w in
  let outage := TransportError "server out of service" in
  let failure :=
    match ev with
    | EvUserOnline | EvSendMessage =>
        if prints_before_emit ev data then outage else UnicodeEncodeError
    | _ => outage
    end in
  outcome_of (handle ev sid data) w = Returned tt ∧
  sio w' = sio w ∧
  last (stdout w') = Some (LogError (inbound_name ev) failure).
Proof.
  intros Hdown Hwf. cbv zeta. split; [apply handle_returns |].
  revert Hwf. unfold well_formed, prints_before_emit.
  destruct ev; run_any; case_payload data; intros _;
    cbv [sio_emit sio_enter_room sio_leave_room flaky_transport flaky_call]; simpl;
    rewrite ?Hdown; simpl;
    (split; [done | by rewrite last_snoc]).
Qed.

(** * Properties of the settings *)

Lemma py_split_not_nil (sep : ascii) (s : string) : Config.py_split sep s ≠ [].
Proof.
  destruct s as [| c rest]; simpl; [done |].
  destruct (Ascii.eqb c sep); [done |]. by destruct (Config.py_split sep rest).
Qed.

Lemma py_split_concat (sep : ascii) (s : string) :
  String.concat (String sep EmptyString) (Config.py_split sep s) = s.
Proof.
  induction s as [| c rest IH]; simpl; [done |].
  destruct (Ascii.eqb c sep) eqn:E.
  - apply Ascii.eqb_eq in E. subst c.
    pose proof (py_split_not_nil sep rest) as Hne.
    destruct (Config.py_split sep rest) as [| p ps]; [done |].
    change (String.concat (String sep "") ("" :: p :: ps))
      with (String sep (String.concat (String sep "") (p :: ps))).
    by rewrite IH.
  - destruct (Config.py_split sep rest) as [| p ps] eqn:Hsplit.
    + by apply py_split_not_nil in Hsplit.
    + destruct ps as [| q qs].
      * simpl in *. by rewrite IH.
      * change (String.concat (String sep "") (String c p :: q :: qs))
          with (String c (String.concat (String sep "") (p :: q :: qs))).
        by rewrite IH.
Qed.

Lemma py_split_length (sep : ascii) (s : string) :
  List.length (Config.py_split sep s) = S (Config.count_char sep s).
Proof.
  induction s as [| c rest IH]; simpl; [done |].
  destruct (Ascii.eqb c sep); simpl; [by rewrite IH |].
  destruct (Config.py_split sep rest); simpl in *; lia.
Qed.

Lemma py_split_pieces (sep : ascii) (s : string) :
  Forall (λ piece, Config.count_char sep piece = 0) (Config.py_split sep s).
Proof.
  induction s as [| c rest IH]; simpl.
  - by repeat constructor.
  - destruct (Ascii.eqb c sep) eqn:E; [by constructor |].
    destruct (Config.py_split sep rest) as [| p ps].
    + repeat constructor. simpl. by rewrite E.
    + inversion IH as [| ? ? Hp Hps]; subst. constructor; [| done].
      simpl. by rewrite E.
Qed.

(** X16. The list of allowed origins is the setting cut at every comma and
    nothing else: joining the origins with commas gives the setting back,
    there is one origin more than there are commas (empty pieces are
    kept, so an empty setting yields one empty origin), and no origin
    contains a comma. *)
Theorem allowed_origins_round_trip (settings : Config.Settings) :
  String.concat "," (Config.allowed_origins settings) = Config.ALLOWED_ORIGINS settings ∧
  List.length (Config.allowed_origins settings)
    = S (Config.count_char ","%char (Config.ALLOWED_ORIGINS settings)) ∧
  Forall (λ origin, Config.count_char ","%char origin = 0) (Config.allowed_origins settings).
Proof.
  unfold Config.allowed_origins. split_and!.
  - apply py_split_concat.
  - apply py_split_length.
  - apply py_split_pieces.
Qed.

(** X17. When [FIREBASE_CREDENTIALS_BASE64] is set, not empty, decodes and
    parses, [get_firebase_credentials] returns the parsed value, whatever
    it is, and prints only that it used the base64 source: the JSON
    string and the file are not looked at. *)
Theorem base64_credentials_win
    (rt : Config.Runtime) (self : Config.Settings) (s decoded : string) (v : pyval) :
  Config.FIREBASE_CREDENTIALS_BASE64 self = Some s →
  s ≠ "" →
  Config.b64decode rt s = Config.Ok decoded →
  Config.json_loads_bytes rt decoded = Config.Ok v →
  Config.get_firebase_credentials rt self = ([Config.UsingBase64], Config.CredReturned v).
Proof.
  intros Hs Hne Hd Hv. unfold Config.get_firebase_credentials, Config.is_set.
  rewrite Hs. apply String.eqb_neq in Hne. rewrite Hne. simpl. by rewrite Hd, Hv.
Qed.


(** X19. A base64 setting that fails to load does not stop the search:
    its error is printed and the JSON setting, when it is set, not empty
    and parses, is returned. *)
Theorem failing_base64_falls_back_to_json
    (rt : Config.Runtime) (self : Config.Settings) (b j e : string) (v : pyval) :
  Config.FIREBASE_CREDENTIALS_BASE64 self = Some b →
  b ≠ "" →
  Config.b64decode rt b = Config.Fails e →
  Config.FIREBASE_CREDENTIALS_JSON self = Some j →
  j ≠ "" →
  Config.json_loads rt j = Config.Ok v →
  Config.get_firebase_credentials rt self =
    ([Config.ErrorBase64 e; Config.UsingJson], Config.CredReturned v).
Proof.
  intros Hb Hbne Hd Hj Hjne Hv. unfold Config.get_firebase_credentials, Config.is_set.
  apply String.eqb_neq in Hbne, Hjne.
  rewrite Hb, Hj, Hbne, Hjne. simpl. by rewrite Hd, Hv.
Qed.

(** X20. An empty string in [FIREBASE_CREDENTIALS_BASE64] or in
    [FIREBASE_CREDENTIALS_JSON] counts as not set: the decoder and the
    parser are not called on it, nothing is printed for it, and the
    result is that of the same settings with the field at [None]. *)
Theorem empty_credentials_count_as_unset
    (rt : Config.Runtime) (path : string) (b64 json : option string) :
  Config.get_firebase_credentials rt (Config.with_credentials path (Some "") json)
    = Config.get_firebase_credentials rt (Config.with_credentials path None json) ∧
  Config.get_firebase_credentials rt (Config.with_credentials path b64 (Some ""))
    = Config.get_firebase_credentials rt (Config.with_credentials path b64 None).
Proof. split; reflexivity. Qed.

(** ** The further properties at concrete inputs *)

(** X1 at a message sent by A while A is online. *)
Lemma presence_written_only_by_user_online_witness :
  let data := PDict [("conversation_id", PStr "conv1"); ("text", PStr "hi")] in
  EvSendMessage ≠ EvUserOnline ∧
  online_users (world_after (handle EvSendMessage "A" data) stalled) = online_users stalled.
Proof.
  intros data.
  assert (Hev : EvSendMessage ≠ EvUserOnline) by discriminate.
  split; [exact Hev |].
  exact (presence_written_only_by_user_online EvSendMessage "A" data stalled Hev).
Defined.

(** X2 at sessions A and B: B coming online leaves A mapped to u1. *)
Lemma presence_of_other_sessions_kept_witness :
  let data := PDict [("user_id", PStr "u2")] in
  "A" ≠ "B" ∧
  online_users (world_after (user_online "B" data) stalled) !! "A" = Some (PStr "u1") ∧
  online_users (world_after (disconnect "B") stalled) !! "A" = Some (PStr "u1").
Proof.
  intros data.
  assert (Hne : "A" ≠ "B") by discriminate.
  destruct (presence_of_other_sessions_kept "B" "A" PNone data stalled Hne)
    as (_ & Honline & Hoff).
  split_and!; [exact Hne | exact Honline | exact Hoff].
Defined.

(** X3 on a server that is out of service: B is recorded as u2 although
    the broadcast raised. *)
Lemma presence_recorded_despite_failed_broadcast_witness :
  let data := PDict [("user_id", PStr "u2")] in
  supplied data "user_id" = true ∧
  fl_down (sio stalled) = true ∧
  outcome_of (user_online "B" data) stalled = Returned tt ∧
  online_users (world_after (user_online "B" data) stalled) !! "B" = Some (PStr "u2").
Proof.
  intros data.
  assert (Hs : supplied data "user_id" = true) by reflexivity.
  destruct (presence_recorded_despite_failed_broadcast "B" data stalled Hs) as [Hret Hentry].
  split_and!; [exact Hs | reflexivity | exact Hret | exact Hentry].
Defined.

(** X4 with one session online: a second session makes two, the same
    session again keeps one. *)
Lemma health_after_user_online_witness :
  let data := PDict [("user_id", PStr "u1")] in
  supplied data "user_id" = true ∧
  outcome_of health (world_after (user_online "B" data) stalled)
    = Returned (health_report 2) ∧
  outcome_of health (world_after (user_online "A" data) stalled)
    = Returned (health_report 1).
Proof.
  intros data.
  assert (Hs : supplied data "user_id" = true) by reflexivity.
  split_and!; [exact Hs | |].
  - exact (proj2 (health_after_user_online "B" data stalled Hs)).
  - exact (proj2 (health_after_user_online "A" data stalled Hs)).
Defined.

(** X6 at the scenario of A and B in conv1: when A calls, only B is rung. *)
Lemma voice_call_request_excludes_caller_witness :
  let data := PDict [("conversation_id", PStr "conv1"); ("caller_id", PStr "u1")] in
  supplied data "conversation_id" = true ∧
  supplied data "caller_id" = true ∧
  outbox (sio (world_after (voice_call_request "A" data) two_in_conv1)) =
    outbox (sio two_in_conv1) ++
      [mkEmission "incoming_call" data (Some (PStr "conv1")) (Some "A") ["B"]].
Proof.
  intros data.
  assert (Hc : supplied data "conversation_id" = true) by reflexivity.
  assert (Hu : supplied data "caller_id" = true) by reflexivity.
  split_and!; [exact Hc | exact Hu |].
  exact (proj1 (voice_call_request_excludes_caller "A" data two_in_conv1 Hc Hu)).
Defined.

(** X9 at session A announcing u1 and then u9. *)
Lemma user_online_overwrites_witness :
  let first := PDict [("user_id", PStr "u1")] in
  let second := PDict [("user_id", PStr "u9")] in
  let w2 := world_after (user_online "A" second)
              (world_after (user_online "A" first) two_in_conv1) in
  supplied first "user_id" = true ∧
  supplied second "user_id" = true ∧
  online_users w2 !! "A" = Some (PStr "u9") ∧
  List.map em_event (skipn 4 (outbox (sio w2))) = ["user_online"; "user_online"].
Proof.
  intros first second w2.
  assert (H1 : supplied first "user_id" = true) by reflexivity.
  assert (H2 : supplied second "user_id" = true) by reflexivity.
  destruct (user_online_overwrites "A" first second two_in_conv1 H1 H2)
    as (_ & Hentry & _ & Hout).
  split_and!; [exact H1 | exact H2 | exact Hentry |].
  unfold w2. rewrite Hout. reflexivity.
Defined.

(** X10 at session A joining and leaving conv2 while A and B are in
    conv1. *)
Lemma join_then_leave_restores_rooms_witness :
  let joining := PDict [("conversation_id", PStr "conv2"); ("user_id", PStr "u1")] in
  let leaving := PDict [("conversation_id", PStr "conv2")] in
  supplied joining "conversation_id" = true ∧
  supplied joining "user_id" = true ∧
  ¬ In "A" (hub_members (Some (PStr "conv2")) (sio two_in_conv1)) ∧
  rooms (sio (world_after (leave_conversation "A" leaving)
                (world_after (join_conversation "A" joining) two_in_conv1)))
    = rooms (sio two_in_conv1).
Proof.
  intros joining leaving.
  assert (Hc : supplied joining "conversation_id" = true) by reflexivity.
  assert (Hu : supplied joining "user_id" = true) by reflexivity.
  assert (Hsame : data_get leaving "conversation_id" = data_get joining "conversation_id")
    by reflexivity.
  assert (Hfresh : ¬ In "A" (hub_members (Some (data_get joining "conversation_id"))
                               (sio two_in_conv1)))
    by (vm_compute; tauto).
  split_and!; [exact Hc | exact Hu | exact Hfresh |].
  exact (proj1 (join_then_leave_restores_rooms "A" joining leaving two_in_conv1
                  Hc Hu Hsame Hfresh)).
Defined.

(** X11 at a [typing] event whose payload is a list. *)
Lemma non_dict_payload_is_logged_witness :
  let data := PList [PStr "conv1"; PStr "u1"] in
  is_dict data = false ∧
  handle EvTyping "A" data two_in_conv1 =
    (mkWorld (online_users two_in_conv1) (sio two_in_conv1)
       (stdout two_in_conv1 ++ [LogError "typing" (AttributeError "get")]),
     Returned tt).
Proof.
  intros data.
  assert (Hd : is_dict data = false) by reflexivity.
  split; [exact Hd |].
  exact (non_dict_payload_is_logged EvTyping "A" data two_in_conv1 Hd).
Defined.

(** X12 at a [typing] event by A in conv1. *)
Lemma rooms_changed_only_by_join_and_leave_witness :
  let data := PDict [("conversation_id", PStr "conv1"); ("user_id", PStr "u1")] in
  EvTyping ≠ EvJoinConversation ∧
  EvTyping ≠ EvLeaveConversation ∧
  rooms (sio (world_after (handle EvTyping "A" data) two_in_conv1))
    = rooms (sio two_in_conv1).
Proof.
  intros data.
  assert (Hj : EvTyping ≠ EvJoinConversation) by discriminate.
  assert (Hl : EvTyping ≠ EvLeaveConversation) by discriminate.
  split_and!; [exact Hj | exact Hl |].
  exact (rooms_changed_only_by_join_and_leave EvTyping "A" data two_in_conv1 Hj Hl).
Defined.

(** X15 at a message sent by A during an outage. *)
Lemma outage_is_logged_by_handler_witness :
  let data := PDict [("conversation_id", PStr "conv1"); ("text", PStr "hi")] in
  fl_down (sio stalled) = true ∧
  well_formed EvSendMessage data = true ∧
  stdout (world_after (handle EvSendMessage "A" data) stalled) =
    [LogMessageSent (PStr "conv1");
     LogError "send_message" (TransportError "server out of service")] ∧
  last (stdout (world_after (handle EvSendMessage "A" data) stalled)) =
    Some (LogError "send_message" (TransportError "server out of service")).
Proof.
  intros data.
  assert (Hdown : fl_down (sio stalled) = true) by reflexivity.
  assert (Hwf : well_formed EvSendMessage data = true) by reflexivity.
  destruct (outage_is_logged_by_handler EvSendMessage "A" data stalled Hdown Hwf)
    as (_ & _ & Hlast).
  split_and!; [exact Hdown | exact Hwf | reflexivity | exact Hlast].
Defined.

(** X17 with all three sources configured: base64 is used. *)
Lemma base64_credentials_win_witness :
  let self := Config.with_credentials "cred.json" (Some "e30=") (Some "[]") in
  Config.json_source Config.sample_runtime self = Some (PList []) ∧
  Config.file_source Config.sample_runtime self = Some (PDict []) ∧
  Config.get_firebase_credentials Config.sample_runtime self
    = ([Config.UsingBase64], Config.CredReturned (PDict [])).
Proof.
  intros self. split_and!; [reflexivity | reflexivity |].
  apply (base64_credentials_win Config.sample_runtime self "e30=" "{}" (PDict []));
    [reflexivity | discriminate | reflexivity | reflexivity].
Defined.


(** X19 with a base64 value cut short, which does not decode, and a JSON
    value that parses to a list. *)
Lemma failing_base64_falls_back_to_json_witness :
  let self := Config.with_credentials "cred.json" (Some "e30") (Some "[]") in
  Config.get_firebase_credentials Config.sample_runtime self
    = ([Config.ErrorBase64 "Incorrect padding"; Config.UsingJson],
       Config.CredReturned (PList [])).
Proof.
  intros self.
  apply (failing_base64_falls_back_to_json Config.sample_runtime self
           "e30" "[]" "Incorrect padding" (PList []));
    [reflexivity | discriminate | reflexivity | reflexivity | discriminate | reflexivity].
Defined.

(** ** Repeated and unmatched room operations, several devices *)

Lemma hub_enter_member (sid : string) (room : option pyval) (h : hub) :
  In sid (hub_members room h) → hub_enter sid room h = h.
Proof.
  intros Hin. unfold hub_enter.
  destruct (existsb _ _) eqn:E; [done |].
  exfalso. apply in_hub_members in Hin.
  assert (existsb (member_eqb (room, sid)) (rooms h) = true); [| congruence].
  apply existsb_exists. exists (room, sid). split; [done |]. by apply member_eqb_eq.
Qed.

Lemma hub_leave_stranger (sid : string) (room : option pyval) (h : hub) :
  ¬ In sid (hub_members room h) → hub_leave sid room h = h.
Proof.
  intros Hout. unfold hub_leave. destruct h as [rs out]; simpl in *. f_equal.
  apply forallb_filter_id, forallb_forall.
  intros p Hp. apply negb_true_iff. destruct (member_eqb (room, sid) p) eqn:E; [| done].
  apply member_eqb_eq in E. subst p. exfalso. apply Hout.
  by apply (in_hub_members room sid (mkHub rs out)).
Qed.

(** X21. [disconnect] announces the user as offline whenever the
    disconnecting session had an entry, without looking at the other
    entries: when another session is mapped to the same user id, the
    [user_offline] broadcast for that user id is still sent, and the other
    session stays mapped to it. *)
Theorem offline_announced_while_other_device_online
    (sid other : string) (user_id : pyval) (w : World hub) :
  other ≠ sid →
  online_users w !! sid = Some user_id →
  online_users w !! other = Some user_id →
  let w' := world_after (disconnect sid) w in
  outbox (sio w') =
    outbox (sio w) ++
      [mkEmission "user_offline" (PDict [("user_id", user_id)]) None None
         (hub_members None (sio w))] ∧
  online_users w' !! other = Some user_id ∧
  online_users w' !! sid = None.
Proof.
  intros Hne Hsid Hother. cbv zeta. run_handler. simpl. rewrite Hsid. simpl.
  split_and!; [done | by rewrite lookup_delete_ne | apply lookup_delete_eq].
Qed.

(** X22. A session that is already in the room and joins again is
    announced again: the rooms stay exactly as they are and, when the log
    line of the join can be written, one more [joined_conversation]
    broadcast goes to the members of the room (none when it cannot). *)
Theorem rejoining_is_announced_again (sid : string) (data : pyval) (w : World hub) :
  supplied data "conversation_id" = true →
  supplied data "user_id" = true →
  In sid (hub_members (Some (data_get data "conversation_id")) (sio w)) →
  let conversation_id := data_get data "conversation_id" in
  let user_id := data_get data "user_id" in
  let w' := world_after (join_conversation sid data) w in
  rooms (sio w') = rooms (sio w) ∧
  outbox (sio w') =
    outbox (sio w) ++
      (if encodable user_id && encodable conversation_id then
         [mkEmission "joined_conversation"
            (PDict [("conversation_id", conversation_id); ("user_id", user_id)])
            (Some conversation_id) None
            (hub_members (Some conversation_id) (sio w))]
       else []).
Proof.
  intros Hc Hu Hin. cbv zeta.
  pose proof (hub_enter_member sid _ (sio w) Hin) as Hsame.
  revert Hc Hu Hin Hsame. run_handler. case_payload data.
  all: intros _ _ _ Hsame; rewrite Hsame, ?app_nil_r; done.
Qed.

(** X23. Leaving a conversation the session is not in changes nothing on
    the server: no room changes and nothing is broadcast. *)
Theorem leaving_as_stranger_changes_nothing (sid : string) (data : pyval) (w : World hub) :
  ¬ In sid (hub_members (Some (data_get data "conversation_id")) (sio w)) →
  let w' := world_after (leave_conversation sid data) w in
  outcome_of (leave_conversation sid data) w = Returned tt ∧
  sio w' = sio w ∧
  online_users w' = online_users w.
Proof.
  intros Hout. cbv zeta. split; [apply try_except_print_returns |].
  pose proof (hub_leave_stranger sid _ (sio w) Hout) as Hsame.
  revert Hout Hsame. run_handler. case_payload data.
Qed.

(** X21 at two devices of user u1: A disconnects, B stays online as u1,
    and [user_offline] for u1 goes out to both. *)
Lemma offline_announced_while_other_device_online_witness :
  let w' := world_after (disconnect "A") two_devices in
  "B" ≠ "A" ∧
  online_users two_devices !! "A" = Some (PStr "u1") ∧
  online_users two_devices !! "B" = Some (PStr "u1") ∧
  last (outbox (sio w')) =
    Some (mkEmission "user_offline" (PDict [("user_id", PStr "u1")]) None None ["A"; "B"]) ∧
  online_users w' !! "B" = Some (PStr "u1").
Proof.
  intros w'.
  assert (Hne : "B" ≠ "A") by discriminate.
  assert (Ha : online_users two_devices !! "A" = Some (PStr "u1")) by reflexivity.
  assert (Hb : online_users two_devices !! "B" = Some (PStr "u1")) by reflexivity.
  destruct (offline_announced_while_other_device_online "A" "B" (PStr "u1")
              two_devices Hne Ha Hb) as (Hout & Hstay & _).
  split_and!; [exact Hne | exact Ha | exact Hb | | exact Hstay].
  unfold w'. rewrite Hout. apply last_snoc.
Defined.

(** X22 at A, already in conv1, joining conv1 again. *)
Lemma rejoining_is_announced_again_witness :
  let data := PDict [("conversation_id", PStr "conv1"); ("user_id", PStr "u1")] in
  supplied data "conversation_id" = true ∧
  supplied data "user_id" = true ∧
  In "A" (hub_members (Some (PStr "conv1")) (sio two_in_conv1)) ∧
  rooms (sio (world_after (join_conversation "A" data) two_in_conv1))
    = rooms (sio two_in_conv1) ∧
  outbox (sio (world_after (join_conversation "A" data) two_in_conv1)) =
    outbox (sio two_in_conv1) ++
      [mkEmission "joined_conversation" data (Some (PStr "conv1")) None ["A"; "B"]].
Proof.
  intros data.
  assert (Hc : supplied data "conversation_id" = true) by reflexivity.
  assert (Hu : supplied data "user_id" = true) by reflexivity.
  assert (Hin : In "A" (hub_members (Some (data_get data "conversation_id"))
                          (sio two_in_conv1)))
    by (vm_compute; tauto).
  destruct (rejoining_is_announced_again "A" data two_in_conv1 Hc Hu Hin) as [Hrooms Hout].
  split_and!; [exact Hc | exact Hu | exact Hin | exact Hrooms | exact Hout].
Defined.

(** X23 at A leaving conv2, which it never joined. *)
Lemma leaving_as_stranger_changes_nothing_witness :
  let data := PDict [("conversation_id", PStr "conv2")] in
  ¬ In "A" (hub_members (Some (PStr "conv2")) (sio two_in_conv1)) ∧
  sio (world_after (leave_conversation "A" data) two_in_conv1) = sio two_in_conv1.
Proof.
  intros data.
  assert (Hout : ¬ In "A" (hub_members (Some (data_get data "conversation_id"))
                             (sio two_in_conv1)))
    by (vm_compute; tauto).
  destruct (leaving_as_stranger_changes_nothing "A" data two_in_conv1 Hout) as (_ & Hsio & _).
  split; [exact Hout | exact Hsio].
Defined.

(** * Broadcasts lost to the log line printed before them *)

(** C4 fails when the conversation id cannot be printed.  A and B are in
    the room named by the lone surrogate U+D800; A sends a message to it.
    [send_message] prints the conversation id before it calls [sio.emit]:
    the print raises, the [except] logs the encoding error, and nothing
    is broadcast although the conversation id is supplied.  [typing],
    which calls [sio.emit] before it prints, broadcasts to the same room
    although its own line cannot be printed either. *)
Theorem send_message_lost_when_id_unprintable :
  let w := two_in_unprintable_room in
  let w' := world_after (send_message "A" unprintable_message) w in
  supplied unprintable_message "conversation_id" = true ∧
  hub_members (Some (data_get unprintable_message "conversation_id")) (sio w) = ["A"; "B"] ∧
  outcome_of (send_message "A" unprintable_message) w = Returned tt ∧
  outbox (sio w') = outbox (sio w) ∧
  stdout w' = stdout w ++ [LogError "send_message" UnicodeEncodeError] ∧
  outbox (sio (world_after (typing "A" unprintable_typing) w)) =
    outbox (sio w) ++
      [mkEmission "user_typing"
         (PDict [("conversation_id", PStr lone_surrogate);
                 ("user_id", PStr lone_surrogate);
                 ("is_typing", PBool true)])
         (Some (PStr lone_surrogate)) (Some "A") ["B"]].
Proof. split_and!; reflexivity. Qed.

(** C5 fails when the user id cannot be printed.  Session A announces
    itself with the lone surrogate U+D800 as [user_id].  [user_online]
    writes the entry, then prints the user id before it calls
    [sio.emit]: the print raises, the [except] logs the encoding error,
    and no [user_online] is broadcast although the entry is in
    [online_users]. *)
Theorem user_online_unannounced_when_id_unprintable :
  let w := two_in_conv1 in
  let w' := world_after (user_online "A" unprintable_user) w in
  supplied unprintable_user "user_id" = true ∧
  outcome_of (user_online "A" unprintable_user) w = Returned tt ∧
  online_users w' !! "A" = Some (PStr lone_surrogate) ∧
  outbox (sio w') = outbox (sio w) ∧
  stdout w' = stdout w ++ [LogError "user_online" UnicodeEncodeError].
Proof. split_and!; reflexivity. Qed.

(** C6 fails when a field cannot be printed.  Session C joins conv1,
    where A and B are, with the lone surrogate U+D800 as [user_id].
    [join_conversation] enters the room, then prints both fields before
    it calls [sio.emit]: the print raises, the [except] logs the encoding
    error, and no [joined_conversation] is broadcast although C is now in
    the room. *)
Theorem join_unannounced_when_id_unprintable :
  let w := three_sessions in
  let w' := world_after (join_conversation "C" unprintable_join) w in
  supplied unprintable_join "conversation_id" = true ∧
  supplied unprintable_join "user_id" = true ∧
  outcome_of (join_conversation "C" unprintable_join) w = Returned tt ∧
  hub_members (Some (PStr "conv1")) (sio w) = ["A"; "B"] ∧
  hub_members (Some (PStr "conv1")) (sio w') = ["A"; "B"; "C"] ∧
  outbox (sio w') = outbox (sio w) ∧
  stdout w' = stdout w ++ [LogError "join_conversation" UnicodeEncodeError].
Proof. split_and!; reflexivity. Qed.
